(** * Meme generator backend: template catalogue, likes and favourites

    A shallow embedding of the request handlers of the meme-generator
    server and the properties of its specification.

    - [Js]        the JavaScript primitives the handlers rely on
                  ([parseInt], [||] on numbers, [Array.prototype.slice],
                  [Math.ceil] of a quotient, [indexOf], [splice]).
    - [Catalog]   [controllers/templateController.js]: the process-wide
                  [templateCache], [getTemplates] and its helpers.
    - [Routes]    the query sanitising of [routes/templateRoutes.js]
                  ([router.get('/')]) and its favourite toggle.
    - [Memes]     the like/unlike handler of the meme routes together with
                  the [memeSchema] it persists through.
    - [Tags]      the tag handling of the upload route and of the
                  [pre('save')] hook of [templateSchema].
    - [MyMemes], [MemeDelete]
                  the paging of [GET /my-memes] and the handler of
                  [DELETE /:id] of the meme routes.

    Numbers are JavaScript doubles in the source.  Every number the
    handlers compute is an integer or [NaN]; integers are modelled by [Z]
    (exact below 2^53) and [NaN] explicitly. *)

From Stdlib Require Import ZArith String Ascii List Lia Permutation Sorted.
From stdpp Require Import gmap strings list.

Local Open Scope Z_scope.

(* ================================================================== *)
(** * JavaScript primitives *)
(* ================================================================== *)

Module Js.

(** A JavaScript number as far as the handlers produce one. *)
Inductive Num : Type :=
  | NaN
  | PosInf
  | Int (z : Z).

#[global] Instance Num_eq_dec : EqDecision Num.
Proof. solve_decision. Defined.

(** A value read off an object property that may be missing. *)
Inductive Field : Type :=
  | Undefined
  | Number (n : Num).

(** [x + k] for a numeric constant [k]: [ToNumber(undefined)] is [NaN],
    and [NaN] absorbs. *)
Definition add (x : Field) (k : Z) : Num :=
  match x with
  | Undefined => NaN
  | Number NaN => NaN
  | Number PosInf => PosInf
  | Number (Int z) => Int (z + k)
  end.

(** White space skipped by [parseInt] (the ASCII part of StrWhiteSpaceChar). *)
Definition is_space (c : ascii) : bool :=
  match nat_of_ascii c with
  | 9%nat | 10%nat | 11%nat | 12%nat | 13%nat | 32%nat => true
  | _ => false
  end.

Fixpoint trim_start (s : string) : string :=
  match s with
  | String c r => if is_space c then trim_start r else s
  | EmptyString => s
  end.

(** Value of a character as a digit of the given radix (10 or 16). *)
Definition digit (radix : Z) (c : ascii) : option Z :=
  let n := Z.of_nat (nat_of_ascii c) in
  let v :=
    if (48 <=? n) && (n <=? 57) then Some (n - 48)
    else if (97 <=? n) && (n <=? 122) then Some (n - 87)
    else if (65 <=? n) && (n <=? 90) then Some (n - 55)
    else None in
  match v with
  | Some d => if d <? radix then Some d else None
  | None => None
  end.

(** The longest prefix of radix digits, as a number; [acc] is [None]
    until the first digit has been read. *)
Fixpoint digits (radix : Z) (s : string) (acc : option Z) : option Z :=
  match s with
  | EmptyString => acc
  | String c r =>
      match digit radix c with
      | Some d => digits radix r (Some (radix * default 0 acc + d))
      | None => acc
      end
  end.

(** [parseInt(s)] with no radix argument: leading white space, an
    optional sign, an optional [0x]/[0X] prefix, then digits; [None] is
    [NaN]. *)
Definition parseInt (s : string) : option Z :=
  let s1 := trim_start s in
  let '(sign, s2) :=
    match s1 with
    | String "-"%char r => (-1, r)
    | String "+"%char r => (1, r)
    | _ => (1, s1)
    end in
  let '(radix, s3) :=
    match s2 with
    | String "0"%char (String "x"%char r) => (16, r)
    | String "0"%char (String "X"%char r) => (16, r)
    | _ => (10, s2)
    end in
  match digits radix s3 None with
  | Some m => Some (sign * m)
  | None => None
  end.

(** [ToString] of a query parameter that may be absent. *)
Definition to_string (q : option string) : string :=
  match q with
  | Some s => s
  | None => "undefined"
  end.

(** [x || d] for a number [x]: [NaN] and [0] are falsy. *)
Definition or_num (x : option Z) (d : Z) : Z :=
  match x with
  | Some z => if z =? 0 then d else z
  | None => d
  end.

(** Truthiness of a string that may be absent: [undefined] and [""] are
    falsy. *)
Definition truthy_str (q : option string) : bool :=
  match q with
  | Some EmptyString => false
  | Some _ => true
  | None => false
  end.

(** [Math.ceil(a / b)] for integers [a >= 0] and [b]. *)
Definition ceil_div (a b : Z) : Num :=
  if b =? 0 then (if a =? 0 then NaN else PosInf)
  else Int (- ((- a) / b)).

(** [arr.slice(start, end)]: a negative index counts from the end, both
    are clamped to the array. *)
Definition slice {A} (arr : list A) (start end_ : Z) : list A :=
  let len := Z.of_nat (length arr) in
  let k := if start <? 0 then Z.max (len + start) 0 else Z.min start len in
  let final := if end_ <? 0 then Z.max (len + end_) 0 else Z.min end_ len in
  take (Z.to_nat (Z.max (final - k) 0)) (drop (Z.to_nat k) arr).

(** [arr.indexOf(x)]: first position of [x], or [None] for [-1]. *)
Fixpoint indexOf `{EqDecision A} (arr : list A) (x : A) : option nat :=
  match arr with
  | [] => None
  | y :: r => if decide (y = x) then Some 0%nat else S <$> indexOf r x
  end.

(** [arr.splice(i, 1)] for an index inside the array. *)
Definition splice1 {A} (arr : list A) (i : nat) : list A :=
  take i arr ++ drop (S i) arr.

(** ASCII part of [String.prototype.toLowerCase]. *)
Definition lower_char (c : ascii) : ascii :=
  let n := nat_of_ascii c in
  if (65 <=? n)%nat && (n <=? 90)%nat then ascii_of_nat (n + 32) else c.

Fixpoint toLowerCase (s : string) : string :=
  match s with
  | EmptyString => EmptyString
  | String c r => String (lower_char c) (toLowerCase r)
  end.

End Js.

(* ================================================================== *)
(** * Template tags: the upload route and the [pre('save')] hook *)
(* ================================================================== *)

Module Tags.

(** White space removed from the end, as [trim_start] removes it from
    the front. *)
Fixpoint trim_end (s : string) : string :=
  match s with
  | EmptyString => EmptyString
  | String c r =>
      match trim_end r with
      | EmptyString => if Js.is_space c then EmptyString else String c EmptyString
      | r' => String c r'
      end
  end.

(** [String.prototype.trim]. *)
Definition trim (s : string) : string := trim_end (Js.trim_start s).

(** [s.split(sep)] for a one-character separator. *)
Fixpoint split (sep : ascii) (s : string) : list string :=
  match s with
  | EmptyString => [EmptyString]
  | String c r =>
      if Ascii.eqb c sep then EmptyString :: split sep r
      else
        match split sep r with
        | h :: t => String c h :: t
        | [] => [String c EmptyString]
        end
  end.

Definition nonempty (t : string) : bool :=
  negb (String.length t =? 0)%nat.

(** [req.body.tags ? req.body.tags.split(',').map(tag => tag.trim())
    .filter(t => t.length > 0) : []] of the upload route. *)
Definition process (tags : option string) : list string :=
  if Js.truthy_str tags
  then List.filter nonempty (map trim (split "," (Js.to_string tags)))
  else [].

(** [[...new Set(xs)]]: the first occurrence of each element, in
    order; [seen] holds what has been kept so far. *)
Fixpoint uniq (seen xs : list string) : list string :=
  match xs with
  | [] => []
  | x :: r =>
      if bool_decide (x ∈ seen) then uniq seen r else x :: uniq (x :: seen) r
  end.

(** The tag part of [templateSchema.pre('save')]; [modified] is
    [this.isModified('tags')]. *)
Definition pre_save (modified : bool) (tags : list string) : list string :=
  if modified then uniq [] (map trim tags) else tags.

(** The validator of [templateSchema.tags]. *)
Definition valid (tags : list string) : bool :=
  (length tags <=? 10)%nat.

End Tags.

(* ================================================================== *)
(** * The template catalogue: [controllers/templateController.js] *)
(* ================================================================== *)

Module Catalog.

(** A field value of a stored template document. *)
Inductive Value : Type :=
  | VNum (z : Z)
  | VStr (s : string)
  | VDate (ms : Z).

#[global] Instance Value_eq_dec : EqDecision Value.
Proof. solve_decision. Defined.

(** A template document as [.lean()] returns it: the store-assigned
    [_id] and the fields the document holds. *)
Record Doc : Type := mkDoc {
  _id : N;
  fields : gmap string Value
}.

#[global] Instance Doc_eq_dec : EqDecision Doc.
Proof. solve_decision. Defined.

(** One entry of [response.data.data.memes] of the external source. *)
Record ImgflipMeme : Type := mkMeme {
  id : string;
  name : string;
  url : string;
  width : Z;
  height : Z;
  box_count : Z
}.

(** [let templateCache = { lastUpdated, data, expiresIn }]. *)
Record Cache : Type := mkCache {
  lastUpdated : option Z;
  data : option (list Doc);
  expiresIn : Z
}.

(** Process state: the Template collection in its natural order and the
    module-level cache variable. *)
Record State : Type := mkState {
  collection : list Doc;
  templateCache : Cache
}.

(** [req.query]. *)
Record Request : Type := mkRequest {
  query_page : option string;
  query_limit : option string;
  query_search : option string;
  query_category : option string
}.

(** What one call observes of its surroundings: the two readings of
    [Date.now()], the outcome of [axios.get] ([None] for a network error,
    a timeout or a payload without [data.data.memes]), the draws of
    [Math.random()] already scaled by 1000 and floored, and
    [process.env.NODE_ENV === 'development']. *)
Record Env : Type := mkEnv {
  now_check : Z;
  now_refresh : Z;
  axios_get : option (list ImgflipMeme);
  random : nat -> Z;
  development : bool
}.

(** The filter object built by [buildTemplateQuery]: [$or] holds the
    pattern matched against [name] or [category], [category] the exact
    value. *)
Record Query : Type := mkQuery {
  or_regex : option string;
  category_eq : option string
}.

Record PageRef : Type := mkPageRef {
  ref_page : Z;
  ref_limit : Z
}.

Record Pagination : Type := mkPagination {
  currentPage : Z;
  totalPages : Js.Num;
  totalTemplates : Z;
  limit : Z
}.

(** The body of a successful listing; [next] and [previous] are absent
    keys when [None]. *)
Record Listing : Type := mkListing {
  success : bool;
  templates : list Doc;
  next : option PageRef;
  previous : option PageRef;
  pagination : Pagination
}.

Record Failure : Type := mkFailure {
  failure_success : bool;
  message : string;
  error : option string
}.

Inductive Response : Type :=
  | Json (body : Listing)
  | Status (code : Z) (body : Failure).

(** Store and network operations a call performs, in order. *)
Inductive Event : Type :=
  | CountDocuments (q : option Query)
  | AxiosGet
  | InsertMany (n : nat)
  | FindPage (q : Query) (skip lim : Z)
  | FindAll (q : Query).

(** An awaited computation either yields a value or throws. *)
Inductive Result (A : Type) : Type :=
  | Return (a : A)
  | Throw (msg : string).
Arguments Return {A} a.
Arguments Throw {A} msg.

Definition EXPIRES_IN : Z := 15 * 60 * 1000.

Definition initial_cache : Cache :=
  {| lastUpdated := None; data := None; expiresIn := EXPIRES_IN |}.

(** The fields named in [.select(...)]. *)
Definition selected : list string :=
  ["templateId"; "name"; "url"; "width"; "height"; "category"; "createdAt"].

(** Inclusive projection: the named fields, and the [_id]. *)
Definition select (names : list string) (d : Doc) : Doc :=
  {| _id := _id d;
     fields := filter (fun kv => kv.1 ∈ names) (fields d) |}.

(** Sort key of a document: a number or date, missing values last in
    descending order. *)
Definition key (f : string) (d : Doc) : option Z :=
  match fields d !! f with
  | Some (VNum z) => Some z
  | Some (VDate z) => Some z
  | _ => None
  end.

Definition key_cmp (a b : option Z) : comparison :=
  match a, b with
  | Some x, Some y => x ?= y
  | Some _, None => Gt
  | None, Some _ => Lt
  | None, None => Eq
  end.

(** [a] comes strictly before [b] under
    [{ popularity: -1, createdAt: -1 }]. *)
Definition before (a b : Doc) : bool :=
  match key_cmp (key "popularity" a) (key "popularity" b) with
  | Gt => true
  | Lt => false
  | Eq =>
      match key_cmp (key "createdAt" a) (key "createdAt" b) with
      | Gt => true
      | _ => false
      end
  end.

Fixpoint insert_sorted (x : Doc) (l : list Doc) : list Doc :=
  match l with
  | [] => [x]
  | y :: r => if before y x then y :: insert_sorted x r else x :: y :: r
  end.

(** [.sort({ popularity: -1, createdAt: -1 })]; ties keep the natural
    order. *)
Definition sort (l : list Doc) : list Doc := foldr insert_sorted [] l.

(** [.limit(n)]: [0] is no limit, a negative [n] is read as its
    absolute value. *)
Definition limit_docs (n : Z) (l : list Doc) : list Doc :=
  if n =? 0 then l else take (Z.to_nat (Z.abs n)) l.

Definition fresh_id (coll : list Doc) : N :=
  N.succ (foldr N.max 0%N (map _id coll)).

Fixpoint assign_ids (from : N) (created : Z) (docs : list (gmap string Value))
  : list Doc :=
  match docs with
  | [] => []
  | f :: r =>
      {| _id := from;
         fields := <["createdAt" := VDate created]>
                     (<["updatedAt" := VDate created]> f) |}
      :: assign_ids (N.succ from) created r
  end.

(** The document [seedTemplatesFromImgFlip] builds for one meme; [r] is
    the random draw. *)
Definition seed_doc (r : Z) (meme : ImgflipMeme) : gmap string Value :=
  <["templateId" := VStr (id meme)]>
  (<["name" := VStr (name meme)]>
  (<["url" := VStr (url meme)]>
  (<["width" := VNum (width meme)]>
  (<["height" := VNum (height meme)]>
  (<["category" := VStr "popular"]>
  (<["boxCount" := VNum (box_count meme)]>
  (<["popularity" := VNum (r mod 1000)]> ∅))))))).

(** ** [templateSchema] of the Template model

    What the model validates and stores on an insert.  Documents here
    carry no array values, so [tags] and [textAreas] can only be absent
    and take their default; a value of another kind than the path's
    type counts as invalid. *)

Definition categories : list string :=
  ["Funny"; "Animals"; "Movies"; "TV Shows"; "Celebrities"; "Gaming";
   "Anime"; "Politics"; "Other"].

Definition statuses : list string :=
  ["pending"; "active"; "rejected"; "archived"].

(** The paths the schema declares; under the default strict mode no
    other path of a document is stored. *)
Definition schema_paths : list string :=
  ["user"; "name"; "imageUrl"; "publicId"; "thumbnailUrl"; "width"; "height";
   "category"; "tags"; "textAreas"; "popularity"; "status"; "views";
   "usageCount"; "createdAt"; "updatedAt"].

Fixpoint all_chars (p : ascii -> bool) (s : string) : bool :=
  match s with
  | EmptyString => true
  | String c r => p c && all_chars p r
  end.

(** A 24-digit hexadecimal string, which casts to an ObjectId. *)
Definition object_id_ok (s : string) : bool :=
  (String.length s =? 24)%nat &&
  all_chars (fun c => bool_decide (is_Some (Js.digit 16 c))) s.

Definition strip (prefix s : string) : option string :=
  if String.prefix prefix s
  then Some (String.substring (String.length prefix)
               (String.length s - String.length prefix) s)
  else None.

(** The validator of [imageUrl] and [thumbnailUrl]:
    [/^(https?|ftp):\/\/[^\s/$.?#].[^\s]*$/]. *)
Definition url_ok (s : string) : bool :=
  let rest :=
    match strip "http://" s, strip "https://" s, strip "ftp://" s with
    | Some r, _, _ => Some r
    | None, Some r, _ => Some r
    | None, None, r => r
    end in
  match rest with
  | Some (String c1 (String c2 r)) =>
      negb (Js.is_space c1)
      && negb (bool_decide
                 (c1 ∈ ["/"%char; "$"%char; "."%char; "?"%char; "#"%char]))
      && negb (bool_decide (nat_of_ascii c2 = 10%nat \/ nat_of_ascii c2 = 13%nat))
      && all_chars (fun c => negb (Js.is_space c)) r
  | _ => false
  end.

Definition in_bounds (z : Z) : bool := (100 <=? z) && (z <=? 5000).

(** Does a document pass the validation of [templateSchema]? *)
Definition validates (f : gmap string Value) : bool :=
  match f !! "user" with
  | Some (VStr s) => object_id_ok s
  | _ => false
  end
  &&
  match f !! "name" with
  | Some (VStr s) =>
      Tags.nonempty (Tags.trim s)
      && (String.length (Tags.trim s) <=? 100)%nat
  | _ => false
  end
  &&
  match f !! "imageUrl" with
  | Some (VStr s) => url_ok s
  | _ => false
  end
  &&
  match f !! "publicId" with
  | Some (VStr s) => Tags.nonempty s
  | _ => false
  end
  &&
  match f !! "thumbnailUrl" with
  | None => true
  | Some (VStr s) => negb (Tags.nonempty s) || url_ok s
  | Some _ => false
  end
  &&
  match f !! "width" with
  | Some (VNum z) => in_bounds z
  | _ => false
  end
  &&
  match f !! "height" with
  | Some (VNum z) => in_bounds z
  | _ => false
  end
  &&
  match f !! "category" with
  | None => true
  | Some (VStr c) => bool_decide (c ∈ categories)
  | Some _ => false
  end
  &&
  match f !! "popularity" with
  | None => true
  | Some (VNum z) => 0 <=? z
  | Some _ => false
  end
  &&
  match f !! "status" with
  | None => true
  | Some (VStr c) => bool_decide (c ∈ statuses)
  | Some _ => false
  end
  &&
  forallb (fun p => match f !! p with
                    | None | Some (VNum _) => true
                    | Some _ => false
                    end) ["views"; "usageCount"]
  &&
  forallb (fun p => match f !! p with
                    | None | Some (VDate _) => true
                    | Some _ => false
                    end) ["createdAt"; "updatedAt"]
  &&
  forallb (fun p => bool_decide (f !! p = None)) ["tags"; "textAreas"].

(** The defaults of the scalar paths. *)
Definition defaults : gmap string Value :=
  <["category" := VStr "Funny"]>
  (<["popularity" := VNum 0]>
  (<["status" := VStr "pending"]>
  (<["views" := VNum 0]>
  (<["usageCount" := VNum 0]> ∅)))).

Definition trim_value (v : Value) : Value :=
  match v with
  | VStr s => VStr (Tags.trim s)
  | _ => v
  end.

(** A validated document as it is stored: the declared paths only, the
    name trimmed, missing paths at their default. *)
Definition cast (f : gmap string Value) : gmap string Value :=
  alter trim_value "name" (filter (fun kv => kv.1 ∈ schema_paths) f) ∪ defaults.

Section WithStore.

(** [regex_i pattern subject]: the store's case-insensitive regular
    expression search ([$regex] with [$options: 'i']). *)
Variable regex_i : string -> string -> bool.

Definition regex_field (pat f : string) (d : Doc) : bool :=
  match fields d !! f with
  | Some (VStr s) => regex_i pat s
  | _ => false
  end.

(** Does a document satisfy a filter object? *)
Definition matches (q : Query) (d : Doc) : bool :=
  match or_regex q with
  | Some pat => regex_field pat "name" d || regex_field pat "category" d
  | None => true
  end
  &&
  match category_eq q with
  | Some c => bool_decide (fields d !! "category" = Some (VStr c))
  | None => true
  end.

(** [Template.find(query).lean()]. *)
Definition find (coll : list Doc) (q : Query) : list Doc :=
  List.filter (matches q) coll.

(** [Template.countDocuments(query)]. *)
Definition countDocuments (coll : list Doc) (q : Query) : Z :=
  Z.of_nat (length (find coll q)).

(** [Template.find(query).select(..).sort(..).skip(skip).limit(limit).lean()];
    the store rejects a negative skip. *)
Definition find_page (coll : list Doc) (q : Query) (skip lim : Z)
  : Result (list Doc) :=
  if skip <? 0 then Throw "Skip value must be non-negative"
  else Return (map (select selected)
                 (limit_docs lim (drop (Z.to_nat skip) (sort (find coll q))))).

(** [Template.insertMany(templates)]: every document is validated
    against [templateSchema] first; one invalid document rejects the
    batch and nothing is stored, otherwise the documents are stored as
    cast by the schema. *)
Definition insertMany (env : Env) (coll : list Doc)
    (docs : list (gmap string Value)) : Result (list Doc) :=
  if forallb validates docs
  then Return (coll ++ assign_ids (fresh_id coll) (now_check env) (map cast docs))
  else Throw "Template validation failed".

Definition checkDatabaseSeed (coll : list Doc) : bool :=
  Z.of_nat (length coll) =? 0.

Definition seedTemplatesFromImgFlip (env : Env) (coll : list Doc)
  : Result (list Doc) * list Event :=
  match axios_get env with
  | None => (Throw "Template seeding failed", [AxiosGet])
  | Some memes =>
      let templates := imap (fun i meme => seed_doc (random env i) meme) memes in
      match insertMany env coll templates with
      | Return coll' => (Return coll', [AxiosGet; InsertMany (length templates)])
      | Throw _ =>
          (Throw "Template seeding failed", [AxiosGet; InsertMany (length templates)])
      end
  end.

Definition buildTemplateQuery (search category : option string) : Query :=
  {| or_regex := if Js.truthy_str search then search else None;
     category_eq :=
       if Js.truthy_str category then Js.toLowerCase <$> category else None |}.

Definition paginateResults (data : list Doc) (page limit : Z) : Listing :=
  let startIndex := (page - 1) * limit in
  let endIndex := page * limit in
  let len := Z.of_nat (length data) in
  {| success := true;
     templates := Js.slice data startIndex endIndex;
     next :=
       if endIndex <? len
       then Some {| ref_page := page + 1; ref_limit := limit |} else None;
     previous :=
       if startIndex >? 0
       then Some {| ref_page := page - 1; ref_limit := limit |} else None;
     pagination :=
       {| currentPage := page;
          totalPages := Js.ceil_div len limit;
          totalTemplates := len;
          limit := limit |} |}.

(** The test of the cache at the top of [getTemplates]: the snapshot when
    [data] and [lastUpdated] are truthy and the entry is younger than
    [expiresIn]. *)
Definition cached (c : Cache) (now : Z) : option (list Doc) :=
  match data c, lastUpdated c with
  | Some d, Some t =>
      if negb (t =? 0) && (now - t <? expiresIn c) then Some d else None
  | _, _ => None
  end.

(** [const page = ...] and [const limit = ...]. *)
Definition page_of (req : Request) : Z :=
  Js.or_num (Js.parseInt (Js.to_string (query_page req))) 1.

Definition limit_of (req : Request) : Z :=
  Z.min (Js.or_num (Js.parseInt (Js.to_string (query_limit req))) 20) 100.

(** Lines 27-31 of [getTemplates]: count the collection and seed it when
    it is empty. *)
Definition seedIfEmpty (env : Env) (coll : list Doc)
  : Result (list Doc) * list Event :=
  let shouldSeed := checkDatabaseSeed coll in
  let '(seeded, ev) :=
    if shouldSeed then seedTemplatesFromImgFlip env coll
    else (Return coll, []) in
  (seeded, CountDocuments None :: ev).

(** The [try] block of [getTemplates]. *)
Definition getTemplates_try (env : Env) (req : Request) (st : State)
  : Result Listing * State * list Event :=
  let page := page_of req in
  let limit := limit_of req in
  let search := query_search req in
  let category := query_category req in
  let skip := (page - 1) * limit in
  match cached (templateCache st) (now_check env) with
  | Some data => (Return (paginateResults data page limit), st, [])
  | None =>
      match seedIfEmpty env (collection st) with
      | (Throw msg, ev1) => (Throw msg, st, ev1)
      | (Return coll, ev1) =>
          let st1 := {| collection := coll; templateCache := templateCache st |} in
          let query := buildTemplateQuery search category in
          let ev2 := ev1 ++ [FindPage query skip limit; CountDocuments (Some query)] in
          match find_page coll query skip limit with
          | Throw msg => (Throw msg, st1, ev2)
          | Return templates =>
              let total := countDocuments coll query in
              let st2 :=
                {| collection := coll;
                   templateCache :=
                     {| lastUpdated := Some (now_refresh env);
                        data := Some (find coll query);
                        expiresIn := EXPIRES_IN |} |} in
              (Return
                 {| success := true;
                    templates := templates;
                    next := None;
                    previous := None;
                    pagination :=
                      {| currentPage := page;
                         totalPages := Js.ceil_div total limit;
                         totalTemplates := total;
                         limit := limit |} |},
               st2, ev2 ++ [FindAll query])
          end
      end
  end.

(** [exports.getTemplates]: the [catch] turns any throw into a 500. *)
Definition getTemplates (env : Env) (req : Request) (st : State)
  : Response * State * list Event :=
  match getTemplates_try env req st with
  | (Return body, st', ev) => (Json body, st', ev)
  | (Throw msg, st', ev) =>
      (Status 500
         {| failure_success := false;
            message := "Failed to fetch templates";
            error := if development env then Some msg else None |},
       st', ev)
  end.

End WithStore.

(** A regular expression without metacharacters searched case-insensitively
    is a substring search. *)
Fixpoint prefix_of (p s : string) : bool :=
  match p, s with
  | EmptyString, _ => true
  | String a p', String b s' => if Ascii.eqb a b then prefix_of p' s' else false
  | String _ _, EmptyString => false
  end.

Fixpoint contains (p s : string) : bool :=
  prefix_of p s ||
  match s with
  | EmptyString => false
  | String _ s' => contains p s'
  end.

Definition literal_i (pat subject : string) : bool :=
  contains (Js.toLowerCase pat) (Js.toLowerCase subject).

End Catalog.

(* ================================================================== *)
(** * [routes/templateRoutes.js]: query sanitising and favourites *)
(* ================================================================== *)

Module Routes.

(** A destructured query parameter with a numeric default, as
    [parseInt] then reads it ([ToString] of the default when absent). *)
Definition with_default (q : option string) (d : string) : string :=
  match q with
  | Some s => s
  | None => d
  end.

(** [const pageNum = Math.max(parseInt(page) || 1, 1)] with [page = 1]
    as the default. *)
Definition pageNum (page : option string) : Z :=
  Z.max (Js.or_num (Js.parseInt (with_default page "1")) 1) 1.

(** [const limitNum = Math.min(Math.max(parseInt(limit) || 20, 1), 100)]
    with [limit = 20] as the default. *)
Definition limitNum (limit : option string) : Z :=
  Z.min (Z.max (Js.or_num (Js.parseInt (with_default limit "20")) 20) 1) 100.

(** [templateSchema.status]. *)
Inductive TemplateStatus : Type := pending | active | rejected | archived.

#[global] Instance TemplateStatus_eq_dec : EqDecision TemplateStatus.
Proof. solve_decision. Defined.

(** The paths of a stored template the favourite toggle reads or
    writes. *)
Record Template : Type := mkTemplate {
  status : TemplateStatus;
  popularity : Z
}.

(** The path of a user document the toggle reads and writes; its
    entries are template ids, compared by value by [indexOf]. *)
Record User : Type := mkUser {
  favoriteTemplates : list N
}.

(** Both collections, keyed by [_id]. *)
Record State : Type := mkState {
  templates : gmap N Template;
  users : gmap N User
}.

Inductive Action : Type := added | removed.

Inductive Response : Type :=
  | Toggled (action : Action) (favorites : list N)
  | NotFound (message : string).

(** [Template.findByIdAndUpdate(templateId, { $inc: { popularity: d } })]. *)
Definition inc_popularity (templateId : N) (d : Z) (ts : gmap N Template)
  : gmap N Template :=
  alter (fun t => {| status := status t; popularity := popularity t + d |})
        templateId ts.

(** [Template.exists({ _id: templateId, status: 'active' })]. *)
Definition template_exists (templateId : N) (ts : gmap N Template) : bool :=
  match ts !! templateId with
  | Some t => bool_decide (status t = active)
  | None => false
  end.

(** The handler of [POST /:id/favorite] for the authenticated user
    [userId]. *)
Definition favorite (userId templateId : N) (st : State) : Response * State :=
  if negb (template_exists templateId (templates st))
  then (NotFound "Template not found or not available", st)
  else
    match users st !! userId with
    | None => (NotFound "User not found", st)
    | Some user =>
        match Js.indexOf (favoriteTemplates user) templateId with
        | None =>
            let favs := favoriteTemplates user ++ [templateId] in
            (Toggled added favs,
             {| templates := inc_popularity templateId 1 (templates st);
                users := <[userId := {| favoriteTemplates := favs |}]> (users st) |})
        | Some index =>
            let favs := Js.splice1 (favoriteTemplates user) index in
            (Toggled removed favs,
             {| templates := inc_popularity templateId (-1) (templates st);
                users := <[userId := {| favoriteTemplates := favs |}]> (users st) |})
        end
    end.

(** A sequence of favourite requests, each by a user on a template. *)
Fixpoint run (reqs : list (N * N)) (st : State) : State :=
  match reqs with
  | [] => st
  | (userId, templateId) :: rest => run rest (favorite userId templateId st).2
  end.

(** How often a user's favourites name template [t]. *)
Definition occurrences (t : N) (u : User) : Z :=
  Z.of_nat (count_occ N.eq_dec (favoriteTemplates u) t).

(** How many favourite entries across all users name template [t]. *)
Definition holders (t : N) (us : gmap N User) : Z :=
  map_fold (fun _ u acc => occurrences t u + acc) 0 us.

(** Every template's popularity covers the favourite entries naming it. *)
Definition consistent (st : State) : Prop :=
  forall t row, templates st !! t = Some row -> holders t (users st) <= popularity row.

(** A store in which nobody has a favourite yet and no popularity is
    negative, as after seeding or uploads. *)
Definition fresh (st : State) : Prop :=
  (forall u row, users st !! u = Some row -> favoriteTemplates row = []) /\
  (forall t row, templates st !! t = Some row -> 0 <= popularity row).

End Routes.

(* ================================================================== *)
(** * The meme routes: like / unlike *)
(* ================================================================== *)

Module Memes.

(** The paths [memeSchema] declares. *)
Record Meme : Type := mkMeme {
  user : N;
  template : N;
  imageUrl : string;
  texts : list string;
  likes : list N;
  createdAt : Z
}.

(** A hydrated document inside the handler: the schema paths, and the
    [likesCount] property the handler reads and assigns on the object. *)
Record Document : Type := mkDocument {
  doc : Meme;
  likesCount : Js.Field
}.

(** [Meme.findById] hydrates the schema paths; [memeSchema] declares no
    [likesCount], so that property starts out undefined. *)
Definition hydrate (m : Meme) : Document :=
  {| doc := m; likesCount := Js.Undefined |}.

(** [meme.save()] persists the schema paths. *)
Definition save (d : Document) : Meme := doc d.

Definition set_likes (m : Meme) (l : list N) : Meme :=
  {| user := user m; template := template m; imageUrl := imageUrl m;
     texts := texts m; likes := l; createdAt := createdAt m |}.

Inductive Action : Type := liked | unliked.

Inductive Response : Type :=
  | Done (action : Action) (count : Js.Field)
  | NotFound (message : string).

(** The handler of [POST /:id/like] for the authenticated user
    [userId]. *)
Definition like (userId memeId : N) (memes : gmap N Meme)
  : Response * gmap N Meme :=
  match memes !! memeId with
  | None => (NotFound "Meme not found", memes)
  | Some stored =>
      let meme := hydrate stored in
      match Js.indexOf (likes (doc meme)) userId with
      | None =>
          let meme' :=
            {| doc := set_likes (doc meme) (likes (doc meme) ++ [userId]);
               likesCount := Js.Number (Js.add (likesCount meme) 1) |} in
          (Done liked (likesCount meme'),
           <[memeId := save meme']> memes)
      | Some likeIndex =>
          let meme' :=
            {| doc := set_likes (doc meme) (Js.splice1 (likes (doc meme)) likeIndex);
               likesCount := Js.Number (Js.add (likesCount meme) (-1)) |} in
          (Done unliked (likesCount meme'),
           <[memeId := save meme']> memes)
      end
  end.

(** [likes.length] of a stored meme. *)
Definition likes_length (memeId : N) (memes : gmap N Meme) : Z :=
  match memes !! memeId with
  | Some m => Z.of_nat (length (likes m))
  | None => 0
  end.

End Memes.

(* ================================================================== *)
(** * Sample data *)
(* ================================================================== *)

Module Sample.
Import Catalog.

(** A stored template with every field the seeder writes. *)
Definition template (i : N) (nm : string) (pop created : Z) : Doc :=
  {| _id := i;
     fields :=
       <["createdAt" := VDate created]>
       (<["updatedAt" := VDate created]>
       (seed_doc pop {| id := "t"; name := nm; url := "https://i.imgflip.com/t.jpg";
                        width := 500; height := 400; box_count := 2 |})) |}.

Definition cat_doc : Doc := template 1 "Grumpy Cat" 5 100.
Definition dog_doc : Doc := template 2 "Doge" 9 200.

Definition two : list Doc := [cat_doc; dog_doc].

(** Twenty-five templates, the i-th with popularity i. *)
Definition twenty_five : list Doc :=
  map (fun i => template (N.of_nat i) "Meme" (Z.of_nat i) 0) (seq 1 25).

(** A call at clock reading [now] with the external source unreachable. *)
Definition offline (now : Z) : Env :=
  {| now_check := now; now_refresh := now; axios_get := None;
     random := fun _ => 0; development := false |}.

Definition request (page limit search : option string) : Request :=
  {| query_page := page; query_limit := limit;
     query_search := search; query_category := None |}.

Definition store (coll : list Doc) : State :=
  {| collection := coll; templateCache := initial_cache |}.

(** A meme as the create endpoint stores it: nobody likes it yet. *)
Definition meme : Memes.Meme :=
  {| Memes.user := 1; Memes.template := 1;
     Memes.imageUrl := "https://i.imgflip.com/t.jpg";
     Memes.texts := ["top"; "bottom"]; Memes.likes := [];
     Memes.createdAt := 0 |}.

Definition memes : gmap N Memes.Meme := {[ 1%N := meme ]}.

(** One active template of popularity 0 and one user without
    favourites. *)
Definition favourites : Routes.State :=
  {| Routes.templates :=
       {[ 1%N := {| Routes.status := Routes.active; Routes.popularity := 0 |} ]};
     Routes.users := {[ 7%N := {| Routes.favoriteTemplates := [] |} ]} |}.

End Sample.

(* ================================================================== *)
(** * The meme routes: [GET /my-memes] paging and [DELETE /:id] *)
(* ================================================================== *)

Module MyMemes.

(** [const page = Math.max(1, parseInt(req.query.page) || 1)]. *)
Definition page_of (page : option string) : Z :=
  Z.max 1 (Js.or_num (Js.parseInt (Js.to_string page)) 1).

(** [const limit = Math.min(50, Math.max(1, parseInt(req.query.limit) || 10))]. *)
Definition limit_of (limit : option string) : Z :=
  Z.min 50 (Z.max 1 (Js.or_num (Js.parseInt (Js.to_string limit)) 10)).

(** [const skip = (page - 1) * limit]. *)
Definition skip_of (page limit : Z) : Z := (page - 1) * limit.

Record Pagination : Type := mkPagination {
  currentPage : Z;
  totalPages : Js.Num;
  totalMemes : Z;
  hasNextPage : bool;
  hasPrevPage : bool
}.

(** The [pagination] object of the response; [total] is the result of
    [Meme.countDocuments({ user })]. *)
Definition pagination (page limit total : Z) : Pagination :=
  {| currentPage := page;
     totalPages := Js.ceil_div total limit;
     totalMemes := total;
     hasNextPage := page * limit <? total;
     hasPrevPage := page >? 1 |}.

End MyMemes.

Module MemeDelete.

(** The document [Meme.findById] hands to the handler: the schema
    paths, and [publicId], which [memeSchema] does not declare and which
    is therefore undefined on every loaded document. *)
Record Loaded : Type := mkLoaded {
  paths : Memes.Meme;
  publicId : option string
}.

Definition load (m : Memes.Meme) : Loaded :=
  {| paths := m; publicId := None |}.

Inductive Response : Type :=
  | Deleted
  | NotFound
  | Forbidden
  | Failed.

(** The handler of [DELETE /:id] for the authenticated user [userId].
    [deleteFromCloudinary] is not among the exports of the cloudinary
    service, so entering the asset branch would throw and end in the
    500 of the [catch]. *)
Definition delete_meme (userId memeId : N) (memes : gmap N Memes.Meme)
  : Response * gmap N Memes.Meme :=
  match memes !! memeId with
  | None => (NotFound, memes)
  | Some stored =>
      let meme := load stored in
      if negb (Memes.user (paths meme) =? userId)%N
      then (Forbidden, memes)
      else if Js.truthy_str (publicId meme)
      then (Failed, memes)
      else (Deleted, delete memeId memes)
  end.

End MemeDelete.

(* ================================================================== *)
(** * Properties of the JavaScript primitives *)
(* ================================================================== *)

Section JsFacts.

Lemma ceil_div_bounds (a b k : Z) :
  0 < b -> Js.ceil_div a b = Js.Int k -> (k - 1) * b < a <= k * b.
Proof.
  intros Hb. unfold Js.ceil_div.
  destruct (Z.eqb_spec b 0) as [->|_]; [lia|].
  intros [= <-].
  pose proof (Z.div_mod (- a) b ltac:(lia)) as Hdm.
  pose proof (Z.mod_pos_bound (- a) b Hb) as Hm.
  nia.
Qed.

Lemma ceil_div_Int (a b : Z) :
  b <> 0 -> Js.ceil_div a b = Js.Int (- ((- a) / b)).
Proof.
  intros Hb. unfold Js.ceil_div.
  destruct (Z.eqb_spec b 0); [contradiction|reflexivity].
Qed.

(** With indices inside [0 <= start <= end], [slice] is the textbook
    half-open window. *)
Lemma slice_window {A} (arr : list A) (s e : Z) :
  0 <= s <= e ->
  Js.slice arr s e = take (Z.to_nat (e - s)) (drop (Z.to_nat s) arr).
Proof.
  intros [Hs He]. unfold Js.slice.
  destruct (Z.ltb_spec s 0); [lia|].
  destruct (Z.ltb_spec e 0); [lia|].
  set (len := Z.of_nat (length arr)).
  destruct (Z.le_gt_cases s len) as [Hle|Hgt].
  - rewrite (Z.min_l s len) by lia.
    destruct (Z.le_gt_cases e len).
    + rewrite (Z.min_l e len) by lia. now rewrite Z.max_l by lia.
    + rewrite (Z.min_r e len) by lia. rewrite Z.max_l by lia.
      rewrite !take_ge; [reflexivity| |]; rewrite length_drop; subst len; lia.
  - rewrite (Z.min_r s len) by lia.
    rewrite !drop_ge by (subst len; lia).
    now rewrite !take_nil.
Qed.

Lemma slice_length_le {A} (arr : list A) (s e : Z) :
  0 <= s <= e -> Z.of_nat (length (Js.slice arr s e)) <= e - s.
Proof.
  intros H. rewrite slice_window by exact H.
  rewrite length_take. lia.
Qed.

Lemma indexOf_None `{EqDecision A} (arr : list A) (x : A) :
  Js.indexOf arr x = None <-> x ∉ arr.
Proof.
  induction arr as [|y r IH]; simpl.
  - split; [intros _; apply not_elem_of_nil | reflexivity].
  - destruct (decide (y = x)) as [->|Hne].
    + split; [discriminate|]. intros Hn. exfalso. apply Hn. left.
    + rewrite not_elem_of_cons. destruct (Js.indexOf r x); simpl.
      * split; [discriminate|]. intros [_ Hn]. apply IH in Hn. discriminate.
      * split; [|reflexivity]. intros _. split; [congruence|]. now apply IH.
Qed.

(** [indexOf] finds the first occurrence: what precedes it is free of
    [x]. *)
Lemma indexOf_Some `{EqDecision A} (arr : list A) (x : A) (i : nat) :
  Js.indexOf arr x = Some i ->
  arr = take i arr ++ x :: drop (S i) arr /\ x ∉ take i arr.
Proof.
  revert i. induction arr as [|y r IH]; simpl; intros i; [discriminate|].
  destruct (decide (y = x)) as [->|Hne].
  - intros [= <-]. simpl. rewrite drop_0. split; [reflexivity|apply not_elem_of_nil].
  - destruct (Js.indexOf r x) as [j|] eqn:Hj; simpl; [|discriminate].
    intros [= <-]. destruct (IH j eq_refl) as [Heq Hnot]. simpl. split.
    + f_equal. exact Heq.
    + rewrite not_elem_of_cons. split; [congruence|exact Hnot].
Qed.

Lemma indexOf_app_fresh `{EqDecision A} (arr : list A) (x : A) :
  x ∉ arr -> Js.indexOf (arr ++ [x]) x = Some (length arr).
Proof.
  induction arr as [|y r IH]; simpl; intros Hn.
  - destruct (decide (x = x)); [reflexivity|contradiction].
  - apply not_elem_of_cons in Hn as [Hne Hn].
    destruct (decide (y = x)); [congruence|]. now rewrite IH.
Qed.

Lemma splice1_app_last {A} (arr : list A) (x : A) :
  Js.splice1 (arr ++ [x]) (length arr) = arr.
Proof.
  unfold Js.splice1. rewrite take_app_length.
  rewrite drop_ge by (rewrite length_app; simpl; lia).
  apply app_nil_r.
Qed.

Example parseInt_digits_then_text : Js.parseInt "12px" = Some 12.
Proof. reflexivity. Qed.

Example parseInt_sign_after_space : Js.parseInt "  -3" = Some (-3).
Proof. reflexivity. Qed.

Example parseInt_no_digit : Js.parseInt "abc" = None.
Proof. reflexivity. Qed.

Example parseInt_hex : Js.parseInt "0x1f" = Some 31.
Proof. reflexivity. Qed.

Example parseInt_undefined : Js.parseInt (Js.to_string None) = None.
Proof. reflexivity. Qed.

Example slice_inside : Js.slice [1; 2; 3; 4; 5] 1 3 = [2; 3].
Proof. reflexivity. Qed.

Example slice_from_end : Js.slice [1; 2; 3; 4; 5] (-2) 10 = [4; 5].
Proof. reflexivity. Qed.

Example ceil_div_25_10 : Js.ceil_div 25 10 = Js.Int 3.
Proof. reflexivity. Qed.

End JsFacts.

(* ================================================================== *)
(** * Properties of the template catalogue *)
(* ================================================================== *)

Module CatalogProps.
Import Catalog.

Section Listing.

Variable regex_i : string -> string -> bool.

Lemma insert_sorted_perm (x : Doc) (l : list Doc) :
  Permutation (insert_sorted x l) (x :: l).
Proof.
  induction l as [|y r IH]; simpl; [reflexivity|].
  destruct (before y x); [|reflexivity].
  rewrite IH. apply perm_swap.
Qed.

Lemma sort_perm (l : list Doc) : Permutation (sort l) l.
Proof.
  induction l as [|x r IH]; simpl; [reflexivity|].
  rewrite insert_sorted_perm. now constructor.
Qed.

Lemma sort_length (l : list Doc) : length (sort l) = length l.
Proof. apply Permutation_length, sort_perm. Qed.

(** A stale entry stays stale as the clock advances. *)
Lemma cached_stale_later (c : Cache) (now now' : Z) :
  cached c now = None -> now <= now' -> cached c now' = None.
Proof.
  unfold cached. destruct (data c), (lastUpdated c) as [t|]; try reflexivity.
  destruct (t =? 0); simpl; [reflexivity|].
  destruct (Z.ltb_spec (now - t) (expiresIn c)); [discriminate|].
  intros _ Hle. destruct (Z.ltb_spec (now' - t) (expiresIn c)); [lia|reflexivity].
Qed.

(** The cached branch: the answer is computed from the snapshot alone. *)
Lemma getTemplates_hit env req st snapshot :
  cached (templateCache st) (now_check env) = Some snapshot ->
  getTemplates regex_i env req st
  = (Json (paginateResults snapshot (page_of req) (limit_of req)), st, []).
Proof.
  intros H. unfold getTemplates, getTemplates_try. now rewrite H.
Qed.

(** The store branch, once [seedIfEmpty] has returned the collection. *)
Lemma getTemplates_store env req st coll ev1 :
  cached (templateCache st) (now_check env) = None ->
  seedIfEmpty env (collection st) = (Return coll, ev1) ->
  0 <= (page_of req - 1) * limit_of req ->
  let query := buildTemplateQuery (query_search req) (query_category req) in
  let total := countDocuments regex_i coll query in
  let skip := (page_of req - 1) * limit_of req in
  getTemplates regex_i env req st
  = (Json {| success := true;
             templates :=
               map (select selected)
                 (limit_docs (limit_of req)
                    (drop (Z.to_nat skip) (sort (find regex_i coll query))));
             next := None; previous := None;
             pagination :=
               {| currentPage := page_of req;
                  totalPages := Js.ceil_div total (limit_of req);
                  totalTemplates := total;
                  limit := limit_of req |} |},
     {| collection := coll;
        templateCache :=
          {| lastUpdated := Some (now_refresh env);
             data := Some (find regex_i coll query);
             expiresIn := EXPIRES_IN |} |},
     (ev1 ++ [FindPage query skip (limit_of req); CountDocuments (Some query)])
       ++ [FindAll query]).
Proof.
  intros Hc Hseed Hskip. unfold getTemplates, getTemplates_try.
  rewrite Hc, Hseed. unfold find_page.
  destruct (Z.ltb_spec ((page_of req - 1) * limit_of req) 0); [lia|].
  reflexivity.
Qed.

(** A collection that holds a document is not seeded. *)
Lemma seedIfEmpty_nonempty env coll :
  coll <> [] -> seedIfEmpty env coll = (Return coll, [CountDocuments None]).
Proof.
  intros Hne. unfold seedIfEmpty, checkDatabaseSeed.
  destruct coll; [contradiction|]. simpl length.
  now rewrite (proj2 (Z.eqb_neq _ 0)) by lia.
Qed.

(** Every document the seeder builds fails the validation of
    [templateSchema]: it has no [user]. *)
Lemma seed_doc_invalid r meme : validates (seed_doc r meme) = false.
Proof. reflexivity. Qed.

(** A fetched list with at least one meme is rejected by [insertMany]. *)
Lemma seed_rejected env coll m ms :
  axios_get env = Some (m :: ms) ->
  seedTemplatesFromImgFlip env coll
  = (Throw "Template seeding failed", [AxiosGet; InsertMany (S (length ms))]).
Proof.
  intros Hf. unfold seedTemplatesFromImgFlip, insertMany. rewrite Hf.
  cbn [imap forallb]. rewrite seed_doc_invalid. cbn [andb length].
  now rewrite length_imap.
Qed.

(** An empty fetched list inserts nothing. *)
Lemma seed_nothing env coll :
  axios_get env = Some [] ->
  seedTemplatesFromImgFlip env coll = (Return coll, [AxiosGet; InsertMany 0]).
Proof.
  intros Hf. unfold seedTemplatesFromImgFlip, insertMany. rewrite Hf.
  simpl. now rewrite app_nil_r.
Qed.

(** On an empty collection [seedIfEmpty] throws exactly when the fetch
    fails or returns at least one meme. *)
Lemma seedIfEmpty_throw env coll msg ev :
  seedIfEmpty env coll = (Throw msg, ev) ->
  coll = [] /\
  (axios_get env = None \/ exists m ms, axios_get env = Some (m :: ms)).
Proof.
  unfold seedIfEmpty, checkDatabaseSeed.
  destruct coll as [|d r]; simpl; [|discriminate].
  destruct (axios_get env) as [[|m ms]|] eqn:Hf.
  - now rewrite (seed_nothing _ _ Hf).
  - intros _. split; [reflexivity|]. right. now exists m, ms.
  - intros _. split; [reflexivity|]. now left.
Qed.

(** [seedIfEmpty] never changes the collection. *)
Lemma seedIfEmpty_return env coll coll' ev :
  seedIfEmpty env coll = (Return coll', ev) -> coll' = coll.
Proof.
  unfold seedIfEmpty, checkDatabaseSeed.
  destruct coll as [|d r]; simpl; [|now intros [= <- _]].
  destruct (axios_get env) as [[|m ms]|] eqn:Hf.
  - rewrite (seed_nothing _ _ Hf). now intros [= <- _].
  - now rewrite (seed_rejected _ _ _ _ Hf).
  - unfold seedTemplatesFromImgFlip. now rewrite Hf.
Qed.

Lemma paginate_window (records : list Doc) (page limit : Z) :
  1 <= page -> 1 <= limit ->
  templates (paginateResults records page limit)
  = take (Z.to_nat limit) (drop (Z.to_nat ((page - 1) * limit)) records).
Proof.
  intros Hp Hl. unfold paginateResults. simpl.
  rewrite slice_window by nia. do 2 f_equal. lia.
Qed.

Lemma store_window (l : list Doc) (skip limit : Z) :
  1 <= limit ->
  map (select selected) (limit_docs limit (drop (Z.to_nat skip) l))
  = take (Z.to_nat limit) (drop (Z.to_nat skip) (map (select selected) l)).
Proof.
  intros Hl. unfold limit_docs.
  destruct (Z.eqb_spec limit 0); [lia|].
  rewrite Z.abs_eq by lia.
  now rewrite <- List.firstn_map, <- List.skipn_map.
Qed.

Lemma window_length (records : list Doc) (skip limit : Z) :
  0 <= limit ->
  Z.of_nat (length (take (Z.to_nat limit) (drop (Z.to_nat skip) records))) <= limit.
Proof. intros Hl. rewrite length_take. lia. Qed.

(** The second page of ten out of twenty-five records is records 11 to
    20. *)
Lemma window_second_page (records : list Doc) :
  length records = 25%nat ->
  let w := take (Z.to_nat 10) (drop (Z.to_nat ((2 - 1) * 10)) records) in
  length w = 10%nat /\
  forall i, (i < 10)%nat -> w !! i = records !! (10 + i)%nat.
Proof.
  intros Hlen. change (Z.to_nat ((2 - 1) * 10)) with 10%nat.
  change (Z.to_nat 10) with 10%nat. simpl. split.
  - rewrite length_take, length_drop. lia.
  - intros i Hi. rewrite lookup_take_lt by exact Hi. apply lookup_drop.
Qed.

(** ** The window of a listing *)

(** For a request whose page is at least 1 and whose limit lies in
    [1,100], [getTemplates] either fails with status 500 because the
    empty collection could not be seeded, or answers with the window
    [(page-1)*limit, page*limit) of the ordered result set (the cached
    snapshot on a cache hit, the sorted matching records otherwise): at
    most [limit] items, [totalTemplates] the number of records in that
    set (on the store path the count of matching records), and
    [totalPages] the integer [k] with [(k-1)*limit < total <= k*limit].
    In particular page 2 with limit 10 over 25 records yields records 11
    to 20 and [totalPages = 3]. *)
Theorem getTemplates_page_bounds env req st :
  1 <= page_of req ->
  1 <= limit_of req <= 100 ->
  let '(resp, st', _) := getTemplates regex_i env req st in
  match resp with
  | Status code _ =>
      code = 500 /\ collection st = [] /\
      cached (templateCache st) (now_check env) = None /\
      (axios_get env = None \/ exists m ms, axios_get env = Some (m :: ms))
  | Json body =>
      let page := page_of req in
      let limit := limit_of req in
      let query := buildTemplateQuery (query_search req) (query_category req) in
      let records :=
        match cached (templateCache st) (now_check env) with
        | Some snapshot => snapshot
        | None => map (select selected) (sort (find regex_i (collection st') query))
        end in
      let total := Z.of_nat (length records) in
      templates body
      = take (Z.to_nat limit) (drop (Z.to_nat ((page - 1) * limit)) records) /\
      Z.of_nat (length (templates body)) <= limit /\
      totalTemplates (pagination body) = total /\
      (cached (templateCache st) (now_check env) = None ->
       total = countDocuments regex_i (collection st') query) /\
      (exists k, totalPages (pagination body) = Js.Int k /\
                 (k - 1) * limit < total <= k * limit) /\
      (page = 2 -> limit = 10 -> total = 25 ->
       totalPages (pagination body) = Js.Int 3 /\
       length (templates body) = 10%nat /\
       forall i, (i < 10)%nat -> templates body !! i = records !! (10 + i)%nat)
  end.
Proof.
  intros Hp [Hl Hu].
  destruct (cached (templateCache st) (now_check env)) as [snapshot|] eqn:Hc.
  - rewrite (getTemplates_hit _ _ _ _ Hc).
    cbv zeta. rewrite paginate_window by assumption.
    split; [reflexivity|]. split; [apply window_length; lia|].
    split; [reflexivity|]. split; [discriminate|]. split.
    + simpl. eexists. split; [apply ceil_div_Int; lia|].
      apply ceil_div_bounds; [lia|]. apply ceil_div_Int; lia.
    + intros Hp2 Hl10 Ht. simpl totalPages. rewrite Hp2, Hl10.
      assert (Hlen : length snapshot = 25%nat) by lia.
      rewrite Hlen. split; [reflexivity|]. now apply window_second_page.
  - destruct (seedIfEmpty env (collection st)) as [[coll|msg] ev1] eqn:Hseed.
    + rewrite (getTemplates_store _ _ _ _ _ Hc Hseed) by nia.
      cbv zeta. simpl collection. simpl templates. simpl pagination.
      rewrite store_window by assumption.
      assert (Hcount : Z.of_nat (length (map (select selected)
                  (sort (find regex_i coll
                     (buildTemplateQuery (query_search req) (query_category req))))))
              = countDocuments regex_i coll
                  (buildTemplateQuery (query_search req) (query_category req))).
      { unfold countDocuments. now rewrite length_map, sort_length. }
      split; [reflexivity|]. split; [apply window_length; lia|].
      split; [simpl; now rewrite Hcount|]. split; [intros _; exact Hcount|]. split.
      * simpl. rewrite Hcount. eexists. split; [apply ceil_div_Int; lia|].
        apply ceil_div_bounds; [lia|]. apply ceil_div_Int; lia.
      * intros Hp2 Hl10 Ht. simpl totalPages. rewrite <- Hcount, Ht, Hp2, Hl10.
        split; [reflexivity|]. apply window_second_page. lia.
    + unfold getTemplates, getTemplates_try. rewrite Hc, Hseed.
      destruct (seedIfEmpty_throw _ _ _ _ Hseed) as [He Hwhy].
      repeat split; assumption.
Qed.

(** ** C4 *)

(** C4. Let the cached snapshot be the full result of the request's
    filter on the collection the store path reads, and let the skip be
    non-negative.  Then for the same [(page, limit)] both paths answer,
    and the pagination metadata computed in memory by [paginateResults]
    equals the metadata the store path computes from [countDocuments]. *)
Theorem pagination_paths_agree env_hit env_miss req st_hit st_miss coll ev1 :
  cached (templateCache st_miss) (now_check env_miss) = None ->
  seedIfEmpty env_miss (collection st_miss) = (Return coll, ev1) ->
  cached (templateCache st_hit) (now_check env_hit)
  = Some (find regex_i coll
            (buildTemplateQuery (query_search req) (query_category req))) ->
  0 <= (page_of req - 1) * limit_of req ->
  exists hit miss,
    (getTemplates regex_i env_hit req st_hit).1.1 = Json hit /\
    (getTemplates regex_i env_miss req st_miss).1.1 = Json miss /\
    pagination hit = pagination miss.
Proof.
  intros Hmiss Hseed Hhit Hskip.
  rewrite (getTemplates_hit _ _ _ _ Hhit).
  rewrite (getTemplates_store _ _ _ _ _ Hmiss Hseed Hskip).
  do 2 eexists. split; [reflexivity|]. split; [reflexivity|].
  reflexivity.
Qed.

(** The entry a store-path call writes, read back by the same request
    before it expires, yields the metadata that call computed. *)
Lemma refresh_then_hit_agree env env' req st body st' ev :
  cached (templateCache st) (now_check env) = None ->
  getTemplates regex_i env req st = (Json body, st', ev) ->
  now_refresh env <> 0 ->
  now_check env' - now_refresh env < EXPIRES_IN ->
  exists body',
    getTemplates regex_i env' req st' = (Json body', st', []) /\
    pagination body' = pagination body.
Proof.
  intros Hc Hrun Hnz Hyoung.
  unfold getTemplates, getTemplates_try in Hrun. rewrite Hc in Hrun.
  destruct (seedIfEmpty env (collection st)) as [[coll|msg] ev1]; [|discriminate].
  destruct (find_page _ _ _ _ _); [|discriminate].
  injection Hrun as <- <- _.
  eexists. split.
  - apply getTemplates_hit. unfold cached. simpl.
    rewrite (proj2 (Z.eqb_neq _ 0) Hnz). simpl.
    destruct (Z.ltb_spec (now_check env' - now_refresh env) EXPIRES_IN); [reflexivity|lia].
  - reflexivity.
Qed.

(** ** C6 *)

(** C6. When the collection is empty, the cache gives nothing and the
    external fetch fails, [getTemplates] answers 500 with
    [success: false], performs no insert and leaves collection and cache
    as they were; any later request on that state fetches from the
    external source again and, when that fetch returns a list, goes on
    to the insert of its documents. *)
Theorem seeding_failure_aborts env req st :
  collection st = [] ->
  cached (templateCache st) (now_check env) = None ->
  axios_get env = None ->
  getTemplates regex_i env req st
  = (Status 500
       {| failure_success := false;
          message := "Failed to fetch templates";
          error := if development env
                   then Some "Template seeding failed" else None |},
     st, [CountDocuments None; AxiosGet]) /\
  forall env' req',
    now_check env <= now_check env' ->
    let '(_, st', ev') := getTemplates regex_i env' req' st in
    AxiosGet ∈ ev' /\
    (forall memes,
       axios_get env' = Some memes -> InsertMany (length memes) ∈ ev').
Proof.
  intros Hempty Hc Hfetch. split.
  - unfold getTemplates, getTemplates_try, seedIfEmpty, seedTemplatesFromImgFlip.
    rewrite Hc, Hempty, Hfetch. reflexivity.
  - intros env' req' Hlater.
    pose proof (cached_stale_later _ _ _ Hc Hlater) as Hc'.
    unfold getTemplates, getTemplates_try, seedIfEmpty. rewrite Hc', Hempty.
    change (checkDatabaseSeed []) with true. cbv iota.
    destruct (axios_get env') as [[|m ms]|] eqn:Hf.
    + rewrite (seed_nothing _ _ Hf).
      destruct (find_page _ _ _ _ _); simpl; (split; [set_solver|]);
        intros ? [= <-]; set_solver.
    + rewrite (seed_rejected _ _ _ _ Hf). simpl.
      split; [set_solver|]. intros ? [= <-]. set_solver.
    + unfold seedTemplatesFromImgFlip. rewrite Hf. simpl.
      split; [set_solver|]. discriminate.
Qed.

(** ** C10 *)

Lemma select_fields (names : list string) (d : Doc) (k : string) :
  is_Some (fields (select names d) !! k) -> k ∈ names.
Proof.
  intros [v Hv]. unfold select in Hv. simpl in Hv.
  apply map_lookup_filter_Some in Hv as [_ Hin]. exact Hin.
Qed.

Lemma slice_elem_of {A} (arr : list A) (s e : Z) (x : A) :
  x ∈ Js.slice arr s e -> x ∈ arr.
Proof.
  unfold Js.slice. intros H.
  apply (subseteq_take _ _) in H. apply (subseteq_drop _ _) in H. exact H.
Qed.

Lemma find_elem_of (coll : list Doc) (q : Query) (d : Doc) :
  d ∈ find regex_i coll q -> d ∈ coll.
Proof.
  unfold find. rewrite !list_elem_of_In, filter_In. tauto.
Qed.

Lemma sort_elem_of (l : list Doc) (d : Doc) : d ∈ sort l -> d ∈ l.
Proof. intros H. now rewrite <- (sort_perm l). Qed.

(** C10. On a cache hit the items are cached documents verbatim, with
    every field they were stored with, and the body carries a [next]
    descriptor exactly when a later page exists and a [previous] one
    exactly when an earlier page exists.  On a cache miss every item is
    the projection of a stored document onto the selected fields
    (beside its [_id]), and the body never carries [next] or
    [previous]; the snapshot written to the cache holds the stored
    documents unprojected.  So two calls with the same request on the
    same collection and the same cache entry, one before and one after
    the entry expires, can answer with different bodies. *)
Theorem body_depends_on_freshness :
  (forall env req st snapshot,
     cached (templateCache st) (now_check env) = Some snapshot ->
     exists body,
       (getTemplates regex_i env req st).1.1 = Json body /\
       templates body
       = Js.slice snapshot ((page_of req - 1) * limit_of req)
           (page_of req * limit_of req) /\
       (forall d, d ∈ templates body -> d ∈ snapshot) /\
       (is_Some (next body)
        <-> page_of req * limit_of req < Z.of_nat (length snapshot)) /\
       (is_Some (previous body) <-> 0 < (page_of req - 1) * limit_of req)) /\
  (forall env req st body st' ev,
     cached (templateCache st) (now_check env) = None ->
     getTemplates regex_i env req st = (Json body, st', ev) ->
     next body = None /\ previous body = None /\
     (forall d, d ∈ templates body ->
        (exists stored, stored ∈ collection st' /\ d = select selected stored) /\
        (forall k, is_Some (fields d !! k) -> k ∈ selected)) /\
     (exists snapshot,
        data (templateCache st') = Some snapshot /\
        forall d, d ∈ snapshot -> d ∈ collection st')) /\
  (exists now1 now2 req st hit miss,
     (getTemplates regex_i (Sample.offline now1) req st).1.1 = Json hit /\
     (getTemplates regex_i (Sample.offline now2) req st).1.1 = Json miss /\
     data (templateCache st) = Some (collection st) /\
     is_Some (fields Sample.cat_doc !! "popularity") /\
     Sample.cat_doc ∈ templates hit /\
     is_Some (next hit) /\
     (forall d, d ∈ templates miss -> fields d !! "popularity" = None) /\
     next miss = None /\
     hit <> miss).
Proof.
  split; [|split].
  - intros env req st snapshot Hc.
    rewrite (getTemplates_hit _ _ _ _ Hc). eexists. split; [reflexivity|].
    simpl. split; [reflexivity|]. split; [intros d; apply slice_elem_of|].
    split.
    + destruct (Z.ltb_spec (page_of req * limit_of req)
                  (Z.of_nat (length snapshot))); split; intros H';
        try assumption; try (eexists; reflexivity); try lia.
      destruct H' as [? H']. discriminate H'.
    + unfold Z.gtb. destruct (Z.compare_spec ((page_of req - 1) * limit_of req) 0);
        split; intros H'; try lia; try (eexists; reflexivity);
        destruct H' as [? H']; discriminate H'.
  - intros env req st body st' ev Hc Hrun.
    unfold getTemplates, getTemplates_try in Hrun. rewrite Hc in Hrun.
    destruct (seedIfEmpty env (collection st)) as [[coll|msg] ev1]; [|discriminate].
    unfold find_page in Hrun.
    destruct (_ <? 0); [discriminate|].
    injection Hrun as <- <- _. simpl. split; [reflexivity|]. split; [reflexivity|].
    split.
    + intros d Hd. apply list_elem_of_In, in_map_iff in Hd as (stored & <- & Hin).
      split.
      * exists stored. split; [|reflexivity].
        apply list_elem_of_In in Hin. unfold limit_docs in Hin.
        destruct (_ =? 0) in Hin;
          [|apply (subseteq_take _ _) in Hin];
          apply (subseteq_drop _ _) in Hin;
          apply sort_elem_of in Hin; eapply find_elem_of; exact Hin.
      * intros k. apply select_fields.
    + eexists. split; [reflexivity|]. intros d. apply find_elem_of.
  - exists 2000, 1000000, (Sample.request None (Some "1") None),
      {| collection := Sample.two;
         templateCache := {| lastUpdated := Some 1000; data := Some Sample.two;
                             expiresIn := EXPIRES_IN |} |}.
    eexists. eexists.
    split; [vm_compute; reflexivity|]. split; [vm_compute; reflexivity|].
    split; [reflexivity|]. split; [eexists; vm_compute; reflexivity|].
    split; [left|]. split; [eexists; reflexivity|].
    split; [intros d Hd; apply list_elem_of_singleton in Hd; subst d;
            vm_compute; reflexivity|].
    split; [reflexivity|]. intros Heq. discriminate Heq.
Qed.

End Listing.

Lemma getTemplates_page_bounds_witness :
  exists body,
    (getTemplates literal_i (Sample.offline 1000)
       (Sample.request (Some "2") (Some "10") None)
       (Sample.store Sample.twenty_five)).1.1 = Json body /\
    length (templates body) = 10%nat /\
    totalPages (pagination body) = Js.Int 3.
Proof.
  pose proof (getTemplates_page_bounds literal_i (Sample.offline 1000)
                (Sample.request (Some "2") (Some "10") None)
                (Sample.store Sample.twenty_five)) as H.
  destruct (getTemplates literal_i _ _ _) as [[resp st'] ev] eqn:Hrun.
  assert (Hp : 1 <= page_of (Sample.request (Some "2") (Some "10") None))
    by (vm_compute; discriminate).
  assert (Hl : 1 <= limit_of (Sample.request (Some "2") (Some "10") None) <= 100)
    by (vm_compute; split; discriminate).
  specialize (H Hp Hl).
  destruct resp as [body|code failure].
  - exists body. split; [reflexivity|].
    destruct H as (_ & _ & Htot & _ & _ & Hex).
    assert (Ht : Z.of_nat (length (map (select selected)
               (sort (find literal_i (collection st')
                  (buildTemplateQuery None None))))) = 25).
    { apply (f_equal (fun r => collection r.1.2)) in Hrun. simpl in Hrun.
      rewrite <- Hrun. vm_compute. reflexivity. }
    destruct (Hex eq_refl eq_refl Ht) as (Hpages & Hlen & _).
    split; assumption.
  - exfalso. destruct H as (_ & Hempty & _). discriminate Hempty.
Defined.

Lemma pagination_paths_agree_witness :
  exists hit miss,
    (getTemplates literal_i (Sample.offline 2000)
       (Sample.request (Some "2") (Some "10") None)
       {| collection := Sample.twenty_five;
          templateCache := {| lastUpdated := Some 1000;
                              data := Some Sample.twenty_five;
                              expiresIn := EXPIRES_IN |} |}).1.1 = Json hit /\
    (getTemplates literal_i (Sample.offline 1000)
       (Sample.request (Some "2") (Some "10") None)
       (Sample.store Sample.twenty_five)).1.1 = Json miss /\
    pagination hit = pagination miss.
Proof.
  apply (pagination_paths_agree literal_i (Sample.offline 2000) (Sample.offline 1000)
           (Sample.request (Some "2") (Some "10") None)
           {| collection := Sample.twenty_five;
              templateCache := {| lastUpdated := Some 1000;
                                  data := Some Sample.twenty_five;
                                  expiresIn := EXPIRES_IN |} |}
           (Sample.store Sample.twenty_five)
           Sample.twenty_five [CountDocuments None]).
  - reflexivity.
  - reflexivity.
  - vm_compute. reflexivity.
  - vm_compute. discriminate.
Defined.

Lemma seeding_failure_aborts_witness :
  (getTemplates literal_i (Sample.offline 1000)
     (Sample.request None None None) (Sample.store [])).1.1
  = Status 500 {| failure_success := false;
                  message := "Failed to fetch templates";
                  error := None |}.
Proof.
  pose proof (seeding_failure_aborts literal_i (Sample.offline 1000)
                (Sample.request None None None) (Sample.store [])
                eq_refl eq_refl eq_refl) as [H _].
  rewrite H. reflexivity.
Defined.

Lemma body_depends_on_freshness_witness :
  exists body,
    (getTemplates literal_i (Sample.offline 2000)
       (Sample.request None (Some "1") None)
       {| collection := Sample.two;
          templateCache := {| lastUpdated := Some 1000; data := Some Sample.two;
                              expiresIn := EXPIRES_IN |} |}).1.1 = Json body /\
    templates body = [Sample.cat_doc].
Proof.
  destruct (body_depends_on_freshness literal_i) as [Hhit _].
  destruct (Hhit (Sample.offline 2000) (Sample.request None (Some "1") None)
              {| collection := Sample.two;
                 templateCache := {| lastUpdated := Some 1000; data := Some Sample.two;
                                     expiresIn := EXPIRES_IN |} |}
              Sample.two eq_refl) as (body & Hrun & Hitems & _).
  exists body. split; [exact Hrun|]. rewrite Hitems. reflexivity.
Defined.

(** ** C1 *)

(** C1. Evaluation at the failing input.  An unfiltered request at
    clock 1000 fills the cache with the two templates of the
    collection; the request [page=1&limit=1&search=cat] at clock 2000
    is valid (page 1, limit 1) and one record matches its search, so
    the ceiling of matching records over limit is 1; the answer,
    served from the cache, holds one item but reports
    [totalTemplates = 2] and [totalPages = 2]. *)
Theorem cache_hit_total_ignores_filter :
  let '(_, st1, _) :=
    getTemplates literal_i (Sample.offline 1000)
      (Sample.request None None None) (Sample.store Sample.two) in
  let req := Sample.request (Some "1") (Some "1") (Some "cat") in
  let '(resp, _, _) := getTemplates literal_i (Sample.offline 2000) req st1 in
  page_of req = 1 /\
  limit_of req = 1 /\
  countDocuments literal_i (collection st1)
    (buildTemplateQuery (query_search req) (query_category req)) = 1 /\
  Js.ceil_div 1 (limit_of req) = Js.Int 1 /\
  resp = Json (paginateResults Sample.two 1 1) /\
  templates (paginateResults Sample.two 1 1) = [Sample.cat_doc] /\
  totalTemplates (pagination (paginateResults Sample.two 1 1)) = 2 /\
  totalPages (pagination (paginateResults Sample.two 1 1)) = Js.Int 2.
Proof. vm_compute. repeat split. Qed.

(** ** C2 *)

(** C2. Evaluation at the failing input.  An unfiltered request at
    clock 1000 fills the cache; a request with [search=cat] at clock
    2000 is then answered from the cache without any store operation
    and lists both templates, although only one of them matches the
    search. *)
Theorem cache_hit_ignores_filter :
  let '(_, st1, _) :=
    getTemplates literal_i (Sample.offline 1000)
      (Sample.request None None None) (Sample.store Sample.two) in
  let '(resp, _, ev) :=
    getTemplates literal_i (Sample.offline 2000)
      (Sample.request None None (Some "cat")) st1 in
  resp = Json (paginateResults Sample.two 1 20) /\
  ev = [] /\
  templates (paginateResults Sample.two 1 20) = [Sample.cat_doc; Sample.dog_doc] /\
  find literal_i (collection st1) (buildTemplateQuery (Some "cat") None)
  = [Sample.cat_doc].
Proof. vm_compute. repeat split. Qed.

(** ** C3 *)

(** C3. Evaluation at the failing input.  A request with [search=cat]
    on a stale cache refreshes the cache with the one matching document,
    not with the two documents of the collection; the next unfiltered
    request, served from that entry, reports a single template. *)
Theorem cache_refresh_is_filtered :
  let '(_, st1, ev1) :=
    getTemplates literal_i (Sample.offline 1000)
      (Sample.request None None (Some "cat")) (Sample.store Sample.two) in
  let '(resp, _, _) :=
    getTemplates literal_i (Sample.offline 2000)
      (Sample.request None None None) st1 in
  collection st1 = [Sample.cat_doc; Sample.dog_doc] /\
  data (templateCache st1) = Some [Sample.cat_doc] /\
  last ev1 = Some (FindAll (buildTemplateQuery (Some "cat") None)) /\
  resp = Json (paginateResults [Sample.cat_doc] 1 20) /\
  totalTemplates (pagination (paginateResults [Sample.cat_doc] 1 20)) = 1.
Proof. vm_compute. repeat split. Qed.

(** Whatever the request, a refresh stores the result of the request's
    own filter. *)
Lemma refresh_stores_filtered env req st body st' ev :
  cached (templateCache st) (now_check env) = None ->
  getTemplates literal_i env req st = (Json body, st', ev) ->
  data (templateCache st')
  = Some (find literal_i (collection st')
            (buildTemplateQuery (query_search req) (query_category req))).
Proof.
  intros Hc Hrun. unfold getTemplates, getTemplates_try in Hrun.
  rewrite Hc in Hrun.
  destruct (seedIfEmpty env (collection st)) as [[coll|msg] ev1]; [|discriminate].
  destruct (find_page _ _ _ _ _); [|discriminate].
  injection Hrun as _ <- _. reflexivity.
Qed.

(** ** C5 *)

(** What the controller does clamp: the limit never exceeds 100, and a
    missing or non-numeric value falls back to the default. *)
Lemma limit_of_le_100 req : limit_of req <= 100.
Proof. unfold limit_of. lia. Qed.

Lemma page_of_default req :
  Js.parseInt (Js.to_string (query_page req)) = None -> page_of req = 1.
Proof. unfold page_of. now intros ->. Qed.

Lemma limit_of_default req :
  Js.parseInt (Js.to_string (query_limit req)) = None -> limit_of req = 20.
Proof. unfold limit_of. now intros ->. Qed.

(** The sanitising of [router.get('/')] clamps both ways. *)
Lemma router_clamps (page limit : option string) :
  1 <= Routes.pageNum page /\ 1 <= Routes.limitNum limit <= 100.
Proof. unfold Routes.pageNum, Routes.limitNum. lia. Qed.

Lemma router_defaults (page limit : string) :
  Js.parseInt page = None -> Js.parseInt limit = None ->
  Routes.pageNum (Some page) = 1 /\ Routes.limitNum (Some limit) = 20.
Proof.
  unfold Routes.pageNum, Routes.limitNum, Routes.with_default.
  intros -> ->. split; reflexivity.
Qed.

(** C5. Evaluation at the failing input.  [page=-3] and [limit=-5] stay
    [-3] and [-5] in the controller, where [router.get('/')] turns them
    into [1] and [1]; with [page=-3] the controller's store read is
    rejected for its negative skip and the request ends in a 500. *)
Theorem controller_keeps_negative_page_and_limit :
  page_of (Sample.request (Some "-3") None None) = -3 /\
  limit_of (Sample.request None (Some "-5") None) = -5 /\
  Routes.pageNum (Some "-3") = 1 /\
  Routes.limitNum (Some "-5") = 1 /\
  (getTemplates literal_i (Sample.offline 1000)
     (Sample.request (Some "-3") None None) (Sample.store Sample.two)).1.1
  = Status 500 {| failure_success := false;
                  message := "Failed to fetch templates";
                  error := None |}.
Proof. vm_compute. repeat split. Qed.

End CatalogProps.

(* ================================================================== *)
(** * Properties of the favourite toggle *)
(* ================================================================== *)

Module RoutesProps.
Import Routes.

Section Holders.

Implicit Types (us : gmap N User) (ts : gmap N Template).

Lemma holders_empty t : holders t ∅ = 0.
Proof. unfold holders. now rewrite map_fold_empty. Qed.

Lemma holders_insert_fresh t us i u :
  us !! i = None ->
  holders t (<[i := u]> us) = occurrences t u + holders t us.
Proof.
  intros Hi. unfold holders.
  rewrite map_fold_insert_L; [reflexivity| |exact Hi].
  intros. lia.
Qed.

Lemma holders_nonneg t us : 0 <= holders t us.
Proof.
  unfold holders.
  apply (map_fold_weak_ind (fun r _ => 0 <= r)); [lia|].
  intros i u m r _ Hr. unfold occurrences. lia.
Qed.

(** Saving a user replaces that user's share of the holders. *)
Lemma holders_update t us i old new :
  us !! i = Some old ->
  holders t (<[i := new]> us)
  = holders t us - occurrences t old + occurrences t new.
Proof.
  intros Hi.
  rewrite <- (insert_delete_eq us i new).
  rewrite <- (insert_delete_id us i old Hi) at 2.
  rewrite !holders_insert_fresh by apply lookup_delete_eq. lia.
Qed.

Lemma occurrences_push t t' favs :
  occurrences t' {| favoriteTemplates := favs ++ [t] |}
  = occurrences t' {| favoriteTemplates := favs |} + (if decide (t = t') then 1 else 0).
Proof.
  unfold occurrences. simpl. rewrite count_occ_app. simpl.
  destruct (N.eq_dec t t'), (decide (t = t')); try contradiction; lia.
Qed.

Lemma occurrences_splice t t' favs i :
  Js.indexOf favs t = Some i ->
  occurrences t' {| favoriteTemplates := Js.splice1 favs i |}
  = occurrences t' {| favoriteTemplates := favs |} - (if decide (t = t') then 1 else 0).
Proof.
  intros Hi. apply indexOf_Some in Hi as [Hsplit _].
  unfold occurrences, Js.splice1. simpl.
  rewrite Hsplit at 3. rewrite !count_occ_app. simpl.
  destruct (N.eq_dec t t'), (decide (t = t')); try contradiction; lia.
Qed.

Lemma inc_popularity_lookup t d ts t' :
  inc_popularity t d ts !! t'
  = (fun row => {| status := status row;
                   popularity := popularity row + (if decide (t = t') then d else 0) |})
    <$> ts !! t'.
Proof.
  unfold inc_popularity. destruct (decide (t = t')) as [->|Hne].
  - now rewrite lookup_alter_eq.
  - rewrite lookup_alter_ne by exact Hne.
    destruct (ts !! t') as [[]|]; simpl; [|reflexivity].
    now rewrite Z.add_0_r.
Qed.

(** One request keeps popularity above the number of holders. *)
Lemma favorite_consistent u t st :
  consistent st -> consistent (favorite u t st).2.
Proof.
  intros Hinv. unfold favorite.
  destruct (negb (template_exists t (templates st))); [exact Hinv|].
  destruct (users st !! u) as [user|] eqn:Hu; [|exact Hinv].
  destruct (Js.indexOf (favoriteTemplates user) t) as [i|] eqn:Hidx;
    intros t' row'; simpl; rewrite inc_popularity_lookup;
    destruct (templates st !! t') as [row|] eqn:Hrow; try discriminate;
    intros [= <-]; simpl; specialize (Hinv t' row Hrow);
    rewrite (holders_update _ _ _ _ _ Hu).
  - rewrite (occurrences_splice _ _ _ _ Hidx). destruct user. simpl in *.
    destruct (decide (t = t')); lia.
  - rewrite occurrences_push. destruct user. simpl in *.
    destruct (decide (t = t')); lia.
Qed.

Lemma run_consistent reqs st : consistent st -> consistent (run reqs st).
Proof.
  revert st. induction reqs as [|[u t] rest IH]; intros st Hinv; simpl.
  - exact Hinv.
  - apply IH, favorite_consistent, Hinv.
Qed.

Lemma fresh_consistent st : fresh st -> consistent st.
Proof.
  intros [Hnone Hpop] t row Hrow.
  enough (holders t (users st) = 0) as -> by (eapply Hpop; exact Hrow).
  revert Hnone. generalize (users st). intros us. unfold holders.
  apply (map_fold_weak_ind
           (fun r m => (forall u row, m !! u = Some row -> favoriteTemplates row = []) -> r = 0)).
  - reflexivity.
  - intros i u m r Hi IH Hall.
    unfold occurrences. rewrite (Hall i u) by apply lookup_insert_eq. simpl.
    apply IH. intros j rowj Hj. apply (Hall j).
    rewrite lookup_insert_ne; [exact Hj|]. intros ->. congruence.
Qed.

End Holders.

(** ** C9 *)

(** C9. Start from a store in which every template's popularity is at
    least the number of favourite entries naming it (as in every store
    where nobody has a favourite yet and no popularity is negative).
    After any sequence of favourite requests no popularity is negative.
    In the state reached, a request by an existing user on an existing
    active template that is not among the user's favourites answers
    "added" with the template appended and raises the popularity by
    exactly 1, and the same user's next request on it answers "removed"
    and brings favourites and popularity back; a request on a template
    that is among the favourites answers "removed", takes out its first
    entry and lowers the popularity by exactly 1. *)
Theorem favorite_popularity (st0 : State) (reqs : list (N * N)) :
  consistent st0 ->
  let st := run reqs st0 in
  (forall t row, templates st !! t = Some row -> 0 <= popularity row) /\
  (forall u t row user,
     templates st !! t = Some row ->
     status row = active ->
     users st !! u = Some user ->
     match Js.indexOf (favoriteTemplates user) t with
     | None =>
         let favs := favoriteTemplates user ++ [t] in
         (t ∉ favoriteTemplates user) /\
         exists st1 st2,
           favorite u t st = (Toggled added favs, st1) /\
           templates st1 !! t
           = Some {| status := active; popularity := popularity row + 1 |} /\
           users st1 !! u = Some {| favoriteTemplates := favs |} /\
           favorite u t st1 = (Toggled removed (favoriteTemplates user), st2) /\
           templates st2 !! t = Some row /\
           users st2 !! u = Some user
     | Some index =>
         let favs := Js.splice1 (favoriteTemplates user) index in
         (t ∈ favoriteTemplates user) /\
         exists st1,
           favorite u t st = (Toggled removed favs, st1) /\
           templates st1 !! t
           = Some {| status := active; popularity := popularity row - 1 |} /\
           users st1 !! u = Some {| favoriteTemplates := favs |}
     end).
Proof.
  intros Hinv st. pose proof (run_consistent reqs st0 Hinv) as Hst.
  fold st in Hst. clearbody st. split.
  - intros t row Hrow. pose proof (Hst t row Hrow).
    pose proof (holders_nonneg t (users st)). lia.
  - intros u t row user Hrow Hactive Hu.
    assert (Hex : template_exists t (templates st) = true).
    { unfold template_exists. rewrite Hrow. now apply bool_decide_eq_true. }
    destruct (Js.indexOf (favoriteTemplates user) t) as [i|] eqn:Hidx; cbv zeta.
    + split.
      { apply indexOf_Some in Hidx as [Hsplit _]. rewrite Hsplit.
        apply elem_of_app. right. left. }
      eexists. split; [|split].
      * unfold favorite. rewrite Hex, Hu, Hidx. reflexivity.
      * simpl. rewrite inc_popularity_lookup, Hrow. simpl.
        destruct (decide (t = t)); [|contradiction].
        rewrite Hactive. do 3 f_equal.
      * simpl. apply lookup_insert_eq.
    + split; [now apply indexOf_None|].
      assert (Hex' : template_exists t (inc_popularity t 1 (templates st)) = true).
      { unfold template_exists in *. rewrite inc_popularity_lookup, Hrow in *. exact Hex. }
      do 2 eexists. split; [|split; [|split; [|split; [|split]]]].
      * unfold favorite. rewrite Hex, Hu, Hidx. reflexivity.
      * simpl. rewrite inc_popularity_lookup, Hrow. simpl.
        destruct (decide (t = t)); [|contradiction]. now rewrite Hactive.
      * simpl. apply lookup_insert_eq.
      * unfold favorite. simpl. rewrite Hex'. simpl. rewrite lookup_insert_eq. simpl.
        rewrite indexOf_app_fresh by (now apply indexOf_None).
        rewrite splice1_app_last. reflexivity.
      * simpl. rewrite !inc_popularity_lookup, Hrow. simpl.
        destruct (decide (t = t)); [|contradiction].
        destruct row as [s p]. simpl. do 2 f_equal. lia.
      * simpl. rewrite lookup_insert_eq. now destruct user.
Qed.

Lemma sample_favourites_fresh : fresh Sample.favourites.
Proof.
  split.
  - intros u row Hu. unfold Sample.favourites in Hu. cbn [users] in Hu.
    apply lookup_singleton_Some in Hu as [_ <-]. reflexivity.
  - intros t row Ht. unfold Sample.favourites in Ht. cbn [templates] in Ht.
    apply lookup_singleton_Some in Ht as [_ <-]. simpl. lia.
Qed.

Lemma favorite_popularity_witness :
  consistent Sample.favourites /\
  exists st1 st2,
    favorite 7 1 Sample.favourites = (Toggled added [1%N], st1) /\
    templates st1 !! 1%N = Some {| status := active; popularity := 1 |} /\
    favorite 7 1 st1 = (Toggled removed [], st2) /\
    templates st2 !! 1%N = Some {| status := active; popularity := 0 |}.
Proof.
  pose proof (fresh_consistent _ sample_favourites_fresh) as Hc.
  split; [exact Hc|].
  destruct (favorite_popularity Sample.favourites [] Hc) as [_ Hstep].
  destruct (Hstep 7%N 1%N {| status := active; popularity := 0 |}
              {| favoriteTemplates := [] |} eq_refl eq_refl eq_refl)
    as (_ & st1 & st2 & H1 & H2 & _ & H3 & H4 & _).
  exists st1, st2. repeat split; assumption.
Defined.

Example favorite_three_times :
  popularity <$> templates (run [(7, 1); (7, 1); (7, 1)]%N Sample.favourites) !! 1%N
  = Some 1.
Proof. vm_compute. reflexivity. Qed.

End RoutesProps.

(* ================================================================== *)
(** * Properties of the like toggle *)
(* ================================================================== *)

Module MemesProps.
Import Memes.

Section Toggle.

Implicit Types (memes : gmap N Meme) (m : Meme).

Lemma likes_length_insert memes memeId m :
  likes_length memeId (<[memeId := m]> memes) = Z.of_nat (length (likes m)).
Proof. unfold likes_length. now rewrite lookup_insert_eq. Qed.

(** A like appends the user id. *)
Lemma like_absent u memeId memes m :
  memes !! memeId = Some m ->
  u ∉ likes m ->
  like u memeId memes
  = (Done liked (Js.Number Js.NaN),
     <[memeId := set_likes m (likes m ++ [u])]> memes).
Proof.
  intros Hm Hu. unfold like. rewrite Hm. simpl.
  apply indexOf_None in Hu. now rewrite Hu.
Qed.

(** An unlike removes the first occurrence of the user id. *)
Lemma like_present u memeId memes m :
  memes !! memeId = Some m ->
  u ∈ likes m ->
  exists i,
    Js.indexOf (likes m) u = Some i /\
    like u memeId memes
    = (Done unliked (Js.Number Js.NaN),
       <[memeId := set_likes m (Js.splice1 (likes m) i)]> memes).
Proof.
  intros Hm Hu. unfold like. rewrite Hm. simpl.
  destruct (Js.indexOf (likes m) u) as [i|] eqn:Hidx.
  - exists i. split; reflexivity.
  - apply indexOf_None in Hidx. contradiction.
Qed.

Lemma splice1_removes `{EqDecision A} (l : list A) (x : A) (i : nat) :
  Js.indexOf l x = Some i ->
  Permutation l (x :: Js.splice1 l i) /\
  S (length (Js.splice1 l i)) = length l.
Proof.
  intros Hi. apply indexOf_Some in Hi as [Hsplit _]. unfold Js.splice1. split.
  - rewrite Hsplit at 1. symmetry. apply Permutation_middle.
  - rewrite Hsplit at 3. rewrite !length_app. simpl. lia.
Qed.

(** The likes of a meme stay free of duplicates. *)
Lemma like_NoDup u memeId memes m m' :
  memes !! memeId = Some m ->
  NoDup (likes m) ->
  (like u memeId memes).2 !! memeId = Some m' ->
  NoDup (likes m').
Proof.
  intros Hm Hnd. destruct (decide (u ∈ likes m)) as [Hin|Hout].
  - destruct (like_present _ _ _ _ Hm Hin) as (i & Hidx & ->). simpl.
    rewrite lookup_insert_eq. intros [= <-]. simpl.
    destruct (splice1_removes _ _ _ Hidx) as [Hperm _].
    rewrite Hperm in Hnd. now apply NoDup_cons in Hnd as [_ Hnd].
  - rewrite (like_absent _ _ _ _ Hm Hout). simpl.
    rewrite lookup_insert_eq. intros [= <-]. simpl.
    apply NoDup_app. split; [exact Hnd|]. split; [|apply NoDup_singleton].
    intros x Hx Hx'. apply list_elem_of_singleton in Hx'. now subst.
Qed.

(** The count the handler reports is never a number. *)
Lemma like_reports_NaN u memeId memes action count :
  (like u memeId memes).1 = Done action count -> count = Js.Number Js.NaN.
Proof.
  unfold like. destruct (memes !! memeId) as [m|]; [|discriminate].
  destruct (Js.indexOf _ _); simpl; now intros [= _ <-].
Qed.

(** ** C7 *)

(** C7 (as amended). On a meme whose likes hold each user id at most
    once, one call of the like endpoint changes [likes.length] by
    exactly 1: it likes when the caller's id is absent and unlikes when
    it is present.  A second call by the same user does the opposite, so
    after two calls [likes.length] is back at its original value and the
    likes hold the same ids. *)
Theorem like_twice_restores u memeId memes m :
  memes !! memeId = Some m ->
  NoDup (likes m) ->
  let '(r1, s1) := like u memeId memes in
  let '(r2, s2) := like u memeId s1 in
  Z.abs (likes_length memeId s1 - likes_length memeId memes) = 1 /\
  likes_length memeId s2 = likes_length memeId memes /\
  (exists m2, s2 !! memeId = Some m2 /\ Permutation (likes m2) (likes m)) /\
  (exists c1 c2,
     if decide (u ∈ likes m)
     then r1 = Done unliked c1 /\ r2 = Done liked c2
     else r1 = Done liked c1 /\ r2 = Done unliked c2).
Proof.
  intros Hm Hnd.
  assert (Hlen : likes_length memeId memes = Z.of_nat (length (likes m))).
  { unfold likes_length. now rewrite Hm. }
  destruct (decide (u ∈ likes m)) as [Hin|Hout].
  - destruct (like_present _ _ _ _ Hm Hin) as (i & Hidx & ->).
    destruct (splice1_removes _ _ _ Hidx) as [Hperm Hl].
    assert (Hgone : u ∉ Js.splice1 (likes m) i).
    { rewrite Hperm in Hnd. now apply NoDup_cons in Hnd as [Hgone _]. }
    rewrite (like_absent u memeId _ (set_likes m (Js.splice1 (likes m) i)))
      by (apply lookup_insert_eq || exact Hgone).
    rewrite !likes_length_insert, Hlen. simpl. rewrite length_app. simpl.
    split; [lia|]. split; [lia|]. split.
    + eexists. split; [apply lookup_insert_eq|]. simpl.
      rewrite Hperm at 2. symmetry. apply Permutation_cons_append.
    + do 2 eexists. split; reflexivity.
  - rewrite (like_absent _ _ _ _ Hm Hout).
    assert (Hin : u ∈ likes m ++ [u]) by (apply elem_of_app; right; left).
    destruct (like_present u memeId (<[memeId := set_likes m (likes m ++ [u])]> memes)
                (set_likes m (likes m ++ [u])) (lookup_insert_eq _ _ _) Hin)
      as (i & Hidx & ->).
    simpl in Hidx. rewrite indexOf_app_fresh in Hidx by exact Hout.
    injection Hidx as <-. simpl. rewrite splice1_app_last.
    rewrite !likes_length_insert, Hlen. simpl. rewrite length_app. simpl.
    split; [lia|]. split; [lia|]. split.
    + eexists. split; [apply lookup_insert_eq|]. reflexivity.
    + do 2 eexists. split; reflexivity.
Qed.

End Toggle.

Lemma like_twice_restores_witness :
  likes_length 1 (like 7 1 (like 7 1 Sample.memes).2).2
  = likes_length 1 Sample.memes.
Proof.
  pose proof (like_twice_restores 7 1 Sample.memes Sample.meme
                eq_refl (NoDup_nil_2 : NoDup (likes Sample.meme))) as H.
  destruct (like 7 1 Sample.memes) as [r1 s1]. cbn [snd].
  destruct (like 7 1 s1) as [r2 s2]. cbn [snd].
  exact (proj1 (proj2 H)).
Defined.

(** C7, as stated, fails: two calls by user 7 on a meme nobody liked
    leave the meme as it was, so the number of likes has changed by 0
    and not by 1, and both calls report [NaN] as [likesCount]. *)
Lemma like_twice_counterexample :
  let '(r1, s1) := like 7 1 Sample.memes in
  let '(r2, s2) := like 7 1 s1 in
  r1 = Done liked (Js.Number Js.NaN) /\
  r2 = Done unliked (Js.Number Js.NaN) /\
  s2 = Sample.memes /\
  ~ Z.abs (likes_length 1 s2 - likes_length 1 Sample.memes) = 1.
Proof. vm_compute. repeat split. discriminate. Qed.

(** ** C8 *)

(** C8. Evaluation at the failing input.  User 7 likes a meme nobody
    liked: the stored likes become [[7]], of length 1, while the
    [likesCount] the handler computed is [NaN]; the stored meme consists
    of the schema paths, none of which is [likesCount]. *)
Theorem like_count_is_not_length :
  let '(r1, s1) := like 7 1 Sample.memes in
  r1 = Done liked (Js.Number Js.NaN) /\
  s1 !! 1%N = Some (set_likes Sample.meme [7%N]) /\
  likes_length 1 s1 = 1 /\
  Js.Number Js.NaN <> Js.Number (Js.Int (likes_length 1 s1)).
Proof. vm_compute. repeat split. discriminate. Qed.

End MemesProps.

(* ================================================================== *)
(** * Properties of the tag handling *)
(* ================================================================== *)

Module TagsProps.
Import Tags.

Section Trim.

Lemma trim_start_head (s : string) :
  match Js.trim_start s with
  | String c _ => Js.is_space c = false
  | EmptyString => True
  end.
Proof.
  induction s as [|c r IH]; simpl; [exact I|].
  destruct (Js.is_space c) eqn:Hc; [exact IH|exact Hc].
Qed.

Lemma trim_start_fixed (c : ascii) (r : string) :
  Js.is_space c = false -> Js.trim_start (String c r) = String c r.
Proof. intros Hc. simpl. now rewrite Hc. Qed.

Lemma trim_end_idem (s : string) : trim_end (trim_end s) = trim_end s.
Proof.
  induction s as [|c r IH]; simpl; [reflexivity|].
  destruct (trim_end r) as [|c' r'] eqn:Hr.
  - destruct (Js.is_space c) eqn:Hc; simpl; [reflexivity|now rewrite Hc].
  - simpl. simpl in IH. destruct (trim_end r') as [|c'' r''] eqn:Hr'.
    + destruct (Js.is_space c'); [discriminate|]. now injection IH as ->.
    + now rewrite IH.
Qed.

(** Trimming the end keeps a first character that is not white space. *)
Lemma trim_end_head (c : ascii) (r : string) :
  Js.is_space c = false -> exists r', trim_end (String c r) = String c r'.
Proof.
  intros Hc. simpl. destruct (trim_end r); [rewrite Hc|]; eexists; reflexivity.
Qed.

Lemma trim_idem (s : string) : trim (trim s) = trim s.
Proof.
  unfold trim. pose proof (trim_start_head s) as Hh.
  destruct (Js.trim_start s) as [|c r]; [reflexivity|].
  destruct (trim_end_head c r Hh) as [r' Hr']. rewrite Hr'.
  rewrite (trim_start_fixed c r' Hh), <- Hr'. apply trim_end_idem.
Qed.

Lemma trim_start_chars (s : string) (c : ascii) :
  In c (list_ascii_of_string (Js.trim_start s)) -> In c (list_ascii_of_string s).
Proof.
  induction s as [|a r IH]; simpl; [tauto|].
  destruct (Js.is_space a); simpl; [right; now apply IH|tauto].
Qed.

Lemma trim_end_chars (s : string) (c : ascii) :
  In c (list_ascii_of_string (trim_end s)) -> In c (list_ascii_of_string s).
Proof.
  revert c. induction s as [|a r IH]; intros c; simpl; [tauto|].
  destruct (trim_end r) as [|a' r'].
  - destruct (Js.is_space a); simpl; tauto.
  - simpl. intros [->|H]; [now left|]. right. apply IH. exact H.
Qed.

Lemma trim_chars (s : string) (c : ascii) :
  In c (list_ascii_of_string (trim s)) -> In c (list_ascii_of_string s).
Proof. intros H. now apply trim_start_chars, trim_end_chars. Qed.

(** No piece of a split contains the separator. *)
Lemma split_pieces (sep : ascii) (s piece : string) :
  In piece (split sep s) -> ~ In sep (list_ascii_of_string piece).
Proof.
  revert piece. induction s as [|c r IH]; intros piece; simpl.
  - intros [<-|[]]. simpl. tauto.
  - destruct (Ascii.eqb_spec c sep) as [->|Hne].
    + intros [<-|H]; [simpl; tauto|now apply IH].
    + destruct (split sep r) as [|h t] eqn:Hs.
      * intros [<-|[]]. simpl. intros [?|[]]. contradiction.
      * intros [<-|H].
        -- simpl. intros [?|Hin]; [contradiction|].
           revert Hin. apply IH. now left.
        -- apply IH. now right.
Qed.

Lemma nonempty_spec (t : string) : nonempty t = true <-> t <> EmptyString.
Proof. destruct t; simpl; split; intros H; try easy. Qed.

End Trim.

(** X13. Whatever the [tags] field of an upload holds, every tag the
    route passes on is trimmed, non-empty and free of commas; a missing
    or empty field gives no tags. *)
Theorem process_tags_clean (tags : option string) :
  (Js.truthy_str tags = false -> process tags = []) /\
  forall t, In t (process tags) ->
    trim t = t /\ t <> EmptyString /\ ~ In ","%char (list_ascii_of_string t).
Proof.
  unfold process. split; [now intros ->|].
  destruct (Js.truthy_str tags); [|intros t []].
  intros t Ht. apply filter_In in Ht as [Ht Hne].
  apply in_map_iff in Ht as (piece & <- & Hpiece).
  split; [apply trim_idem|]. split; [now apply nonempty_spec|].
  intros Hc. apply trim_chars in Hc. exact (split_pieces _ _ _ Hpiece Hc).
Qed.

Example process_tags_example :
  process (Some " cat, dog ,,  grumpy cat ,") = ["cat"; "dog"; "grumpy cat"].
Proof. reflexivity. Qed.

Section Uniq.

Lemma uniq_elem_of (seen xs : list string) (x : string) :
  x ∈ uniq seen xs <-> x ∈ xs /\ x ∉ seen.
Proof.
  revert seen. induction xs as [|y r IH]; intros seen; simpl.
  - split; [intros H; inversion H|intros [H _]; inversion H].
  - destruct (bool_decide_reflect (y ∈ seen)) as [Hy|Hy].
    + rewrite IH, elem_of_cons. split; [tauto|].
      intros [[->|H] Hn]; [contradiction|tauto].
    + rewrite elem_of_cons, IH, (elem_of_cons r x y), (not_elem_of_cons seen x y).
      split.
      * intros [->|[H [_ Hn]]]; tauto.
      * intros [[->|H] Hn]; [now left|].
        destruct (decide (x = y)) as [->|Hxy]; [now left|right; tauto].
Qed.

Lemma uniq_NoDup (seen xs : list string) : NoDup (uniq seen xs).
Proof.
  revert seen. induction xs as [|y r IH]; intros seen; simpl; [constructor|].
  destruct (bool_decide (y ∈ seen)); [apply IH|].
  constructor; [|apply IH].
  rewrite uniq_elem_of, not_elem_of_cons. tauto.
Qed.

Lemma uniq_length (seen xs : list string) :
  (length (uniq seen xs) <= length xs)%nat.
Proof.
  revert seen. induction xs as [|y r IH]; intros seen; simpl; [lia|].
  destruct (bool_decide (y ∈ seen)); simpl; [specialize (IH seen)|specialize (IH (y :: seen))]; lia.
Qed.

(** A list without duplicates that avoids [seen] is left as it is. *)
Lemma uniq_fixed (seen xs : list string) :
  NoDup xs -> (forall x, x ∈ xs -> x ∉ seen) -> uniq seen xs = xs.
Proof.
  revert seen. induction xs as [|y r IH]; intros seen Hnd Hdis; simpl; [reflexivity|].
  apply NoDup_cons in Hnd as [Hy Hnd].
  destruct (bool_decide_reflect (y ∈ seen)) as [Hin|_].
  - exfalso. apply (Hdis y); [left|exact Hin].
  - f_equal. apply IH; [exact Hnd|].
    intros x Hx. rewrite not_elem_of_cons. split.
    + intros ->. contradiction.
    + apply Hdis. now right.
Qed.

End Uniq.

(** X14. When the tags of a template were modified, the [pre('save')]
    hook leaves exactly the trimmed forms of the given tags, each once
    and trimmed, never more of them than were given, so a list that
    passed the length validator still does; saving the result again
    changes nothing.  Unmodified tags are not touched. *)
Theorem pre_save_tags_unique (tags : list string) :
  let out := pre_save true tags in
  NoDup out /\
  (forall t, t ∈ out <-> exists x, x ∈ tags /\ t = trim x) /\
  (forall t, t ∈ out -> trim t = t) /\
  (length out <= length tags)%nat /\
  (valid tags = true -> valid out = true) /\
  pre_save true out = out /\
  pre_save false tags = tags.
Proof.
  unfold pre_save. cbv zeta.
  assert (Hmem : forall t, t ∈ uniq [] (map trim tags)
                           <-> exists x, x ∈ tags /\ t = trim x).
  { intros t. rewrite uniq_elem_of, list_elem_of_In, in_map_iff.
    split.
    - intros [(x & <- & Hx) _]. exists x. now rewrite list_elem_of_In.
    - intros (x & Hx & ->). split; [|apply not_elem_of_nil].
      exists x. now rewrite <- list_elem_of_In. }
  assert (Htrim : forall t, t ∈ uniq [] (map trim tags) -> trim t = t).
  { intros t Ht. apply Hmem in Ht as (x & _ & ->). apply trim_idem. }
  assert (Hlen : (length (uniq [] (map trim tags)) <= length tags)%nat).
  { etransitivity; [apply uniq_length|]. now rewrite length_map. }
  split; [apply uniq_NoDup|]. split; [exact Hmem|]. split; [exact Htrim|].
  split; [exact Hlen|]. split.
  - unfold valid. rewrite !Nat.leb_le. lia.
  - split; [|reflexivity].
    assert (Hmap : map trim (uniq [] (map trim tags)) = uniq [] (map trim tags)).
    { rewrite <- (map_id (uniq [] (map trim tags))) at 2.
      apply map_ext_in. intros t Ht. apply Htrim. now apply list_elem_of_In. }
    rewrite Hmap. apply uniq_fixed; [apply uniq_NoDup|].
    intros x _. apply not_elem_of_nil.
Qed.

Example pre_save_example :
  pre_save true [" cat"; "dog"; "cat "; "dog"] = ["cat"; "dog"].
Proof. reflexivity. Qed.

End TagsProps.

(* ================================================================== *)
(** * Further properties of the template catalogue *)
(* ================================================================== *)

Module CatalogMore.
Import Catalog.

Section Paging.

(** X1. For a page of at least 1 and a limit of at least 1,
    [paginateResults] offers [next] (page + 1, same limit) exactly when
    the current page is below [totalPages], and [previous] (page - 1,
    same limit) exactly when the current page is above 1. *)
Theorem paginate_descriptors (records : list Doc) (page limit : Z) :
  1 <= page -> 1 <= limit ->
  let body := paginateResults records page limit in
  exists k,
    totalPages (pagination body) = Js.Int k /\
    next body
    = (if page <? k then Some {| ref_page := page + 1; ref_limit := limit |}
       else None) /\
    previous body
    = (if 1 <? page then Some {| ref_page := page - 1; ref_limit := limit |}
       else None).
Proof.
  intros Hp Hl. cbv zeta. unfold paginateResults. simpl.
  assert (Hlim : limit <> 0) by lia.
  assert (Hpos : 0 < limit) by lia.
  pose proof (ceil_div_Int (Z.of_nat (length records)) limit Hlim) as Hc.
  pose proof (ceil_div_bounds _ _ _ Hpos Hc) as Hk.
  rewrite Hc. revert Hk. generalize (- (- Z.of_nat (length records) / limit)).
  generalize (Z.of_nat (length records)). intros len k Hk.
  exists k. split; [reflexivity|]. split.
  - destruct (Z.ltb_spec (page * limit) len); destruct (Z.ltb_spec page k);
      try reflexivity; nia.
  - unfold Z.gtb. destruct (Z.compare_spec ((page - 1) * limit) 0);
      destruct (Z.ltb_spec 1 page); try reflexivity; nia.
Qed.

Lemma pages_concat (records : list Doc) (limit : Z) (n : nat) :
  1 <= limit ->
  concat (map (fun p => templates (paginateResults records (Z.of_nat p) limit))
              (seq 1 n))
  = take (n * Z.to_nat limit) records.
Proof.
  intros Hl. induction n as [|n IH]; [reflexivity|].
  rewrite seq_S, map_app, concat_app, IH. cbn [map concat].
  rewrite app_nil_r, CatalogProps.paginate_window by lia.
  replace (Z.to_nat ((Z.of_nat (1 + n) - 1) * limit)) with (n * Z.to_nat limit)%nat by nia.
  rewrite take_take_drop. f_equal. lia.
Qed.

(** X2. With a limit of at least 1, the pages 1 to [totalPages] of
    [paginateResults], put one after the other, are the snapshot
    itself: no record is left out and none is listed twice. *)
Theorem pages_cover_snapshot (records : list Doc) (limit k : Z) :
  1 <= limit ->
  totalPages (pagination (paginateResults records 1 limit)) = Js.Int k ->
  concat (map (fun p => templates (paginateResults records (Z.of_nat p) limit))
              (seq 1 (Z.to_nat k)))
  = records.
Proof.
  intros Hl Hk. rewrite pages_concat by exact Hl.
  simpl in Hk. apply ceil_div_bounds in Hk; [|lia].
  apply take_ge. nia.
Qed.

End Paging.

Section Store.

Variable regex_i : string -> string -> bool.

(** ** The order of the store path *)

Lemma key_cmp_le_le (a b c : option Z) :
  key_cmp a b <> Gt -> key_cmp b c <> Gt -> key_cmp a c <> Gt.
Proof.
  destruct a as [x|], b as [y|], c as [z|]; simpl; try congruence.
  rewrite !Z.compare_le_iff. lia.
Qed.

Lemma key_cmp_le_lt (a b c : option Z) :
  key_cmp a b <> Gt -> key_cmp b c = Lt -> key_cmp a c = Lt.
Proof.
  destruct a as [x|], b as [y|], c as [z|]; simpl; try congruence.
  rewrite Z.compare_le_iff, !Z.compare_lt_iff. lia.
Qed.

Lemma key_cmp_lt_le (a b c : option Z) :
  key_cmp a b = Lt -> key_cmp b c <> Gt -> key_cmp a c = Lt.
Proof.
  destruct a as [x|], b as [y|], c as [z|]; simpl; try congruence.
  rewrite Z.compare_le_iff, !Z.compare_lt_iff. lia.
Qed.

Lemma key_cmp_eq_eq (a b c : option Z) :
  key_cmp a b = Eq -> key_cmp b c = Eq -> key_cmp a c = Eq.
Proof.
  destruct a as [x|], b as [y|], c as [z|]; simpl; try congruence.
  rewrite !Z.compare_eq_iff. lia.
Qed.

Lemma key_cmp_antisym (a b : option Z) :
  key_cmp a b = CompOpp (key_cmp b a).
Proof. destruct a, b; simpl; try reflexivity. apply Z.compare_antisym. Qed.

Lemma before_asym (a b : Doc) : before a b = true -> before b a = false.
Proof.
  unfold before.
  rewrite (key_cmp_antisym (key "popularity" b)), (key_cmp_antisym (key "createdAt" b)).
  destruct (key_cmp (key "popularity" a) (key "popularity" b)); simpl; try easy.
  destruct (key_cmp (key "createdAt" a) (key "createdAt" b)); simpl; easy.
Qed.

(** "[b] does not come before [a]" is transitive. *)
Lemma not_before_trans (a b c : Doc) :
  before b a = false -> before c b = false -> before c a = false.
Proof.
  unfold before. intros Hab Hbc.
  destruct (key_cmp (key "popularity" b) (key "popularity" a)) eqn:Hba;
    [| |discriminate];
    destruct (key_cmp (key "popularity" c) (key "popularity" b)) eqn:Hcb;
    try discriminate.
  - rewrite (key_cmp_eq_eq _ _ _ Hcb Hba).
    destruct (key_cmp (key "createdAt" b) (key "createdAt" a)) eqn:Hba';
      try discriminate;
      destruct (key_cmp (key "createdAt" c) (key "createdAt" b)) eqn:Hcb';
      try discriminate;
      destruct (key_cmp (key "createdAt" c) (key "createdAt" a)) eqn:Hca';
      try reflexivity; exfalso;
      apply (key_cmp_le_le (key "createdAt" c) (key "createdAt" b) (key "createdAt" a));
      congruence.
  - rewrite (key_cmp_lt_le _ _ _ Hcb); [reflexivity|congruence].
  - rewrite (key_cmp_le_lt _ _ _ ltac:(rewrite Hcb; discriminate) Hba). reflexivity.
  - rewrite (key_cmp_lt_le _ _ _ Hcb); [reflexivity|congruence].
Qed.

Lemma insert_sorted_Sorted (x : Doc) (l : list Doc) :
  Sorted (fun a b => before b a = false) l ->
  Sorted (fun a b => before b a = false) (insert_sorted x l).
Proof.
  induction l as [|y r IH]; intros Hs; simpl.
  - repeat constructor.
  - destruct (before y x) eqn:Hyx.
    + apply Sorted_inv in Hs as [Hr Hy]. constructor; [now apply IH|].
      destruct r as [|z r']; simpl.
      * constructor. now apply before_asym.
      * destruct (before z x); constructor.
        -- now apply HdRel_inv in Hy.
        -- now apply before_asym.
    + constructor; [exact Hs|]. constructor. exact Hyx.
Qed.

(** X8. [sort] returns its input rearranged so that a document never
    stands behind one it should precede under
    [{ popularity: -1, createdAt: -1 }]: of two listed documents the
    earlier has the greater or equal popularity, and for equal
    popularity the later or equal creation date. *)
Theorem sort_orders (l : list Doc) :
  Permutation (sort l) l /\
  forall i j a b,
    (i < j)%nat -> sort l !! i = Some a -> sort l !! j = Some b ->
    before b a = false /\
    key_cmp (key "popularity" b) (key "popularity" a) <> Gt.
Proof.
  split; [apply CatalogProps.sort_perm|].
  assert (Hs : StronglySorted (fun a b => before b a = false) (sort l)).
  { apply Sorted_StronglySorted.
    - intros a b c. apply not_before_trans.
    - induction l as [|x r IH]; simpl; [constructor|now apply insert_sorted_Sorted]. }
  induction Hs as [|x r Hr IH Hall]; intros i j a b Hij Hi Hj.
  - rewrite lookup_nil in Hi. discriminate.
  - destruct j as [|j]; [lia|]. simpl in Hj. destruct i as [|i].
    + injection Hi as <-.
      assert (Hb : before b x = false).
      { rewrite Forall_forall in Hall. apply Hall.
        eapply list_elem_of_lookup_2. exact Hj. }
      split; [exact Hb|]. unfold before in Hb.
      destruct (key_cmp (key "popularity" b) (key "popularity" x)); congruence.
    + simpl in Hi. apply (IH i j); [lia|assumption|assumption].
Qed.

(** ** The cache entry *)

(** Whatever a call on a stale cache does, it starts by counting the
    collection. *)
Lemma miss_counts_first env req st :
  cached (templateCache st) (now_check env) = None ->
  exists ev, (getTemplates regex_i env req st).2 = CountDocuments None :: ev.
Proof.
  intros Hc. unfold getTemplates, getTemplates_try, seedIfEmpty. rewrite Hc.
  destruct (if checkDatabaseSeed (collection st)
            then seedTemplatesFromImgFlip env (collection st)
            else (Return (collection st), [])) as [[coll|msg] ev1];
    [|eexists; reflexivity].
  destruct (find_page _ _ _ _ _); eexists; reflexivity.
Qed.

(** X3. The entry written by a successful store-path call (at a clock
    reading other than 0) answers every request, whatever its
    parameters, that arrives less than 15 minutes after the refresh,
    with no store or network operation and no change of state; a request
    arriving 15 minutes or more after the refresh goes to the store
    again. *)
Theorem cache_entry_window env req st body st' ev :
  cached (templateCache st) (now_check env) = None ->
  getTemplates regex_i env req st = (Json body, st', ev) ->
  now_refresh env <> 0 ->
  forall env' req',
    (now_check env' - now_refresh env < 15 * 60 * 1000 ->
     exists body', getTemplates regex_i env' req' st' = (Json body', st', [])) /\
    (15 * 60 * 1000 <= now_check env' - now_refresh env ->
     exists ev', (getTemplates regex_i env' req' st').2 = CountDocuments None :: ev').
Proof.
  intros Hc Hrun Hnz env' req'.
  unfold getTemplates, getTemplates_try in Hrun. rewrite Hc in Hrun.
  destruct (seedIfEmpty env (collection st)) as [[coll|msg] ev1]; [|discriminate].
  destruct (find_page _ _ _ _ _); [|discriminate].
  injection Hrun as _ <- _. split; intros Hage.
  - eexists. apply CatalogProps.getTemplates_hit. unfold cached. simpl.
    rewrite (proj2 (Z.eqb_neq _ 0) Hnz). simpl.
    destruct (Z.ltb_spec (now_check env' - now_refresh env) EXPIRES_IN);
      [reflexivity|unfold EXPIRES_IN in *; lia].
  - apply miss_counts_first. unfold cached. simpl.
    destruct (now_refresh env =? 0); simpl; [reflexivity|].
    destruct (Z.ltb_spec (now_check env' - now_refresh env) EXPIRES_IN);
      [unfold EXPIRES_IN in *; lia|reflexivity].
Qed.

(** ** Seeding *)

(** A collection that holds a document is neither changed nor seeded. *)
Lemma nonempty_frame env req st :
  collection st <> [] ->
  collection (getTemplates regex_i env req st).1.2 = collection st /\
  (AxiosGet ∉ (getTemplates regex_i env req st).2) /\
  (forall n, InsertMany n ∉ (getTemplates regex_i env req st).2).
Proof.
  intros Hne. unfold getTemplates, getTemplates_try.
  destruct (cached (templateCache st) (now_check env)).
  - simpl. split; [reflexivity|]. split; [|intros n]; apply not_elem_of_nil.
  - rewrite (CatalogProps.seedIfEmpty_nonempty _ _ Hne).
    destruct (find_page _ _ _ _ _); simpl; (split; [reflexivity|]);
      (split; [|intros n]); intros H;
      repeat (apply elem_of_cons in H as [H|H]; [discriminate H|]);
      inversion H.
Qed.

(** X4. On a collection that holds at least one document, [getTemplates]
    never changes the collection, never calls the external source and
    never inserts, whatever the request, the clock and the cache. *)
Theorem nonempty_collection_untouched env req st :
  collection st <> [] ->
  let '(_, st', ev) := getTemplates regex_i env req st in
  collection st' = collection st /\
  (AxiosGet ∉ ev) /\
  (forall n, InsertMany n ∉ ev).
Proof.
  intros Hne. pose proof (nonempty_frame env req st Hne) as H.
  destruct (getTemplates regex_i env req st) as [[resp st'] ev]. exact H.
Qed.

(** X5. With the [templateSchema] of the Template model the seeder
    cannot fill the collection.  Every document it builds lacks the
    required paths [user], [imageUrl] and [publicId] and names the
    category "popular", which the schema's enumeration does not hold, so
    it fails the validation.  Hence, on an empty collection and a stale
    cache, a fetch that returns at least one meme ends in the 500 of a
    rejected insert with the state unchanged; and whatever the fetch
    returns, no call of [getTemplates] ever changes the collection. *)
Theorem seeding_rejected_by_schema :
  (forall r meme,
     validates (seed_doc r meme) = false /\
     seed_doc r meme !! "user" = None /\
     seed_doc r meme !! "imageUrl" = None /\
     seed_doc r meme !! "publicId" = None /\
     seed_doc r meme !! "category" = Some (VStr "popular") /\
     "popular" ∉ categories) /\
  (forall env req st m ms,
     collection st = [] ->
     cached (templateCache st) (now_check env) = None ->
     axios_get env = Some (m :: ms) ->
     getTemplates regex_i env req st
     = (Status 500
          {| failure_success := false;
             message := "Failed to fetch templates";
             error := if development env
                      then Some "Template seeding failed" else None |},
        st, [CountDocuments None; AxiosGet; InsertMany (S (length ms))])) /\
  (forall env req st,
     collection (getTemplates regex_i env req st).1.2 = collection st).
Proof.
  split; [|split].
  - intros r meme. repeat split; try reflexivity.
    unfold categories. intros H.
    repeat (apply elem_of_cons in H as [H|H]; [discriminate H|]).
    inversion H.
  - intros env req st m ms Hempty Hc Hf.
    unfold getTemplates, getTemplates_try, seedIfEmpty.
    rewrite Hc, Hempty. change (checkDatabaseSeed []) with true. cbv iota.
    now rewrite (CatalogProps.seed_rejected _ _ _ _ Hf).
  - intros env req st. unfold getTemplates, getTemplates_try.
    destruct (cached (templateCache st) (now_check env)); [reflexivity|].
    destruct (seedIfEmpty env (collection st)) as [[coll|msg] ev1] eqn:Hseed;
      [|reflexivity].
    apply CatalogProps.seedIfEmpty_return in Hseed as ->.
    destruct (find_page _ _ _ _ _); reflexivity.
Qed.

(** ** Filters *)

Lemma lower_char_idem (c : ascii) : Js.lower_char (Js.lower_char c) = Js.lower_char c.
Proof. destruct c as [[] [] [] [] [] [] [] []]; reflexivity. Qed.

Lemma toLowerCase_idem (s : string) :
  Js.toLowerCase (Js.toLowerCase s) = Js.toLowerCase s.
Proof.
  induction s as [|c r IH]; simpl; [reflexivity|].
  now rewrite lower_char_idem, IH.
Qed.

(** X6. A request whose [search] and [category] are both missing or
    empty filters nothing: [find] returns the whole collection and
    [countDocuments] its length. *)
Theorem empty_filter_matches_all (coll : list Doc) (search category : option string) :
  Js.truthy_str search = false ->
  Js.truthy_str category = false ->
  find regex_i coll (buildTemplateQuery search category) = coll /\
  countDocuments regex_i coll (buildTemplateQuery search category)
  = Z.of_nat (length coll).
Proof.
  intros Hs Hc. unfold countDocuments, find, buildTemplateQuery.
  rewrite Hs, Hc.
  assert (H : List.filter (matches regex_i {| or_regex := None; category_eq := None |}) coll
              = coll).
  { induction coll as [|d r IH]; simpl; [reflexivity|]. now rewrite IH. }
  now rewrite H.
Qed.

(** X7. The category of a request is lower-cased before the exact
    comparison: a document passes a category filter only if its stored
    category is the lower-cased request value, so a document whose
    stored category contains an upper-case letter passes no category
    filter at all. *)
Theorem category_filter_lowercase (search category : option string) (d : Doc) :
  Js.truthy_str category = true ->
  matches regex_i (buildTemplateQuery search category) d = true ->
  exists c stored,
    category = Some c /\
    fields d !! "category" = Some (VStr stored) /\
    stored = Js.toLowerCase c /\
    Js.toLowerCase stored = stored.
Proof.
  intros Ht Hm. unfold buildTemplateQuery, matches in Hm. rewrite Ht in Hm.
  simpl in Hm. apply andb_true_iff in Hm as [_ Hm].
  destruct category as [c|]; [|discriminate]. simpl in Hm.
  apply bool_decide_eq_true in Hm.
  exists c, (Js.toLowerCase c). repeat split; try assumption.
  apply toLowerCase_idem.
Qed.

End Store.

Lemma paginate_descriptors_witness :
  next (paginateResults Sample.twenty_five 2 10)
  = Some {| ref_page := 3; ref_limit := 10 |} /\
  previous (paginateResults Sample.twenty_five 2 10)
  = Some {| ref_page := 1; ref_limit := 10 |}.
Proof.
  destruct (paginate_descriptors Sample.twenty_five 2 10 ltac:(lia) ltac:(lia))
    as (k & Hk & Hn & Hp).
  split; [rewrite Hn|rewrite Hp]; [|reflexivity].
  injection Hk as <-. reflexivity.
Defined.

Lemma pages_cover_snapshot_witness :
  concat (map (fun p => templates (paginateResults Sample.twenty_five (Z.of_nat p) 10))
              (seq 1 3))
  = Sample.twenty_five.
Proof.
  exact (pages_cover_snapshot Sample.twenty_five 10 3 ltac:(lia) eq_refl).
Defined.

Lemma cache_entry_window_witness :
  exists body',
    getTemplates literal_i (Sample.offline 2000)
      (Sample.request None None (Some "cat"))
      (getTemplates literal_i (Sample.offline 1000)
         (Sample.request None None None) (Sample.store Sample.two)).1.2
    = (Json body',
       (getTemplates literal_i (Sample.offline 1000)
          (Sample.request None None None) (Sample.store Sample.two)).1.2,
       []).
Proof.
  destruct (getTemplates literal_i (Sample.offline 1000)
              (Sample.request None None None) (Sample.store Sample.two))
    as [[resp st'] ev] eqn:Hrun.
  assert (Hjson : exists body, resp = Json body).
  { apply (f_equal (fun r => r.1.1)) in Hrun. simpl in Hrun. rewrite <- Hrun.
    eexists. vm_compute. reflexivity. }
  destruct Hjson as [body ->]. cbn [fst snd].
  destruct (cache_entry_window literal_i (Sample.offline 1000)
              (Sample.request None None None) (Sample.store Sample.two)
              body st' ev eq_refl Hrun ltac:(discriminate)
              (Sample.offline 2000) (Sample.request None None (Some "cat")))
    as [Hyoung _].
  apply Hyoung. reflexivity.
Defined.

Lemma nonempty_collection_untouched_witness :
  collection (getTemplates literal_i (Sample.offline 1000)
                (Sample.request None None (Some "cat"))
                (Sample.store Sample.two)).1.2
  = Sample.two.
Proof.
  pose proof (nonempty_collection_untouched literal_i (Sample.offline 1000)
                (Sample.request None None (Some "cat"))
                (Sample.store Sample.two) ltac:(discriminate)) as H.
  destruct (getTemplates literal_i _ _ _) as [[resp st'] ev].
  exact (proj1 H).
Defined.

Lemma seeding_rejected_by_schema_witness :
  getTemplates literal_i
    {| now_check := 1000; now_refresh := 1000;
       axios_get :=
         Some [ {| id := "61579"; name := "One Does Not Simply";
                   url := "https://i.imgflip.com/1bij.jpg";
                   width := 568; height := 335; box_count := 2 |} ];
       random := fun _ => 417; development := true |}
    (Sample.request None None None) (Sample.store [])
  = (Status 500
       {| failure_success := false;
          message := "Failed to fetch templates";
          error := Some "Template seeding failed" |},
     Sample.store [], [CountDocuments None; AxiosGet; InsertMany 1]).
Proof.
  destruct (seeding_rejected_by_schema literal_i) as (_ & Hreject & _).
  exact (Hreject
           {| now_check := 1000; now_refresh := 1000;
              axios_get :=
                Some [ {| id := "61579"; name := "One Does Not Simply";
                          url := "https://i.imgflip.com/1bij.jpg";
                          width := 568; height := 335; box_count := 2 |} ];
              random := fun _ => 417; development := true |}
           (Sample.request None None None) (Sample.store [])
           _ [] eq_refl eq_refl eq_refl).
Defined.

Lemma empty_filter_matches_all_witness :
  find literal_i Sample.two (buildTemplateQuery (Some "") None) = Sample.two.
Proof.
  exact (proj1 (empty_filter_matches_all literal_i Sample.two (Some "") None
                  eq_refl eq_refl)).
Defined.

Lemma category_filter_lowercase_witness :
  exists c stored,
    Some "POPULAR" = Some c /\
    fields Sample.cat_doc !! "category" = Some (VStr stored) /\
    stored = Js.toLowerCase c /\
    Js.toLowerCase stored = stored.
Proof.
  apply (category_filter_lowercase literal_i None (Some "POPULAR") Sample.cat_doc).
  - reflexivity.
  - vm_compute. reflexivity.
Defined.

End CatalogMore.

(* ================================================================== *)
(** * Further properties of [routes/templateRoutes.js] *)
(* ================================================================== *)

Module RoutesMore.
Import Routes.

(** X9. The sanitising of [router.get('/')] never rejects: every
    [page] becomes a page of at least 1 and every [limit] a limit
    between 1 and 100; a value that parses to a number inside the range
    is kept, a missing or non-numeric one becomes the default (page 1,
    limit 20). *)
Theorem router_sanitises (page limit : option string) :
  1 <= pageNum page /\
  1 <= limitNum limit <= 100 /\
  (forall n, Js.parseInt (with_default page "1") = Some n -> 1 <= n ->
             pageNum page = n) /\
  (forall n, Js.parseInt (with_default limit "20") = Some n -> 1 <= n <= 100 ->
             limitNum limit = n) /\
  (Js.parseInt (with_default page "1") = None -> pageNum page = 1) /\
  (Js.parseInt (with_default limit "20") = None -> limitNum limit = 20) /\
  pageNum None = 1 /\ limitNum None = 20.
Proof.
  unfold pageNum, limitNum. split; [lia|]. split; [lia|].
  split; [|split; [|split; [|split]]].
  - intros n -> Hn. unfold Js.or_num. destruct (Z.eqb_spec n 0); lia.
  - intros n -> Hn. unfold Js.or_num. destruct (Z.eqb_spec n 0); lia.
  - now intros ->.
  - now intros ->.
  - split; reflexivity.
Qed.

Section Favourites.

Implicit Types (st : State).

(** X10. No favourites list ever gets a duplicate: if every user's
    favourites are free of duplicates, they still are after any
    sequence of favourite requests. *)
Theorem favorites_stay_unique st (reqs : list (N * N)) :
  (forall u row, users st !! u = Some row -> NoDup (favoriteTemplates row)) ->
  forall u row, users (run reqs st) !! u = Some row -> NoDup (favoriteTemplates row).
Proof.
  revert st. induction reqs as [|[v t] rest IH]; intros st Hinv; simpl; [exact Hinv|].
  apply IH. unfold favorite.
  destruct (negb (template_exists t (templates st))); [exact Hinv|].
  destruct (users st !! v) as [user|] eqn:Hv; [|exact Hinv].
  pose proof (Hinv v user Hv) as Hnd.
  destruct (Js.indexOf (favoriteTemplates user) t) as [i|] eqn:Hidx;
    intros u row; simpl; destruct (decide (v = u)) as [->|Hne];
    rewrite ?lookup_insert_eq, ?lookup_insert_ne by exact Hne;
    try apply Hinv; intros [= <-]; simpl.
  - apply indexOf_Some in Hidx as [Hsplit _]. unfold Js.splice1.
    rewrite Hsplit in Hnd. apply NoDup_app in Hnd as (H1 & H2 & H3).
    apply NoDup_cons in H3 as [_ H3]. apply NoDup_app. split; [exact H1|].
    split; [|exact H3]. intros x Hx Hx'. apply (H2 x Hx). now right.
  - apply indexOf_None in Hidx. apply NoDup_app. split; [exact Hnd|].
    split; [|apply NoDup_singleton].
    intros x Hx Hx'. apply list_elem_of_singleton in Hx'. now subst.
Qed.

(** X11. Adding a favourite and toggling again is a round trip: when a
    request adds template [t] to user [u]'s favourites, the same
    request repeated removes it and gives back the state before the
    first request, favourites and popularity alike. *)
Theorem favorite_twice_restores (u t : N) st favs st1 :
  favorite u t st = (Toggled added favs, st1) ->
  exists user,
    users st !! u = Some user /\
    favs = favoriteTemplates user ++ [t] /\
    favorite u t st1 = (Toggled removed (favoriteTemplates user), st).
Proof.
  intros Hfav. unfold favorite in Hfav.
  destruct (template_exists t (templates st)) eqn:Hex; simpl in Hfav; [|discriminate].
  destruct (users st !! u) as [user|] eqn:Hu; [|discriminate].
  destruct (Js.indexOf (favoriteTemplates user) t) as [i|] eqn:Hidx; [discriminate|].
  injection Hfav as <- <-. exists user. split; [reflexivity|]. split; [reflexivity|].
  unfold favorite. simpl.
  assert (Hex' : template_exists t (inc_popularity t 1 (templates st)) = true).
  { unfold template_exists in *. rewrite RoutesProps.inc_popularity_lookup.
    destruct (templates st !! t); [exact Hex|discriminate]. }
  rewrite Hex'. simpl. rewrite lookup_insert_eq. simpl.
  rewrite indexOf_app_fresh by (now apply indexOf_None).
  rewrite splice1_app_last. f_equal. destruct st as [ts us]. simpl in *. f_equal.
  - apply map_eq. intros t'. rewrite !RoutesProps.inc_popularity_lookup.
    destruct (ts !! t') as [[s p]|]; simpl; [|reflexivity].
    do 2 f_equal. destruct (decide (t = t')); lia.
  - rewrite insert_insert_eq. apply insert_id. rewrite Hu. now destruct user.
Qed.

(** X12. A favourite request touches nothing but the caller's
    favourites and the popularity of the named template: other users,
    other templates and every template's status stay as they were; and
    when the template is missing or not active the request answers
    404 and changes nothing, so a favourite on a template that is no
    longer active cannot be removed. *)
Theorem favorite_frame (u t : N) st :
  let '(resp, st') := favorite u t st in
  (forall u', u' <> u -> users st' !! u' = users st !! u') /\
  (forall t', t' <> t -> templates st' !! t' = templates st !! t') /\
  (forall t', status <$> templates st' !! t' = status <$> templates st !! t') /\
  (template_exists t (templates st) = false ->
   resp = NotFound "Template not found or not available" /\ st' = st).
Proof.
  unfold favorite.
  destruct (template_exists t (templates st)) eqn:Hex; simpl.
  - destruct (users st !! u) as [user|]; [|now repeat split].
    destruct (Js.indexOf (favoriteTemplates user) t); simpl;
      (split; [intros u' Hne; now rewrite lookup_insert_ne by congruence|]);
      (split; [intros t' Hne; rewrite RoutesProps.inc_popularity_lookup;
               destruct (templates st !! t') as [[]|]; simpl; [|reflexivity];
               destruct (decide (t = t')); [congruence|];
               now rewrite Z.add_0_r|]);
      (split; [intros t'; rewrite RoutesProps.inc_popularity_lookup;
               now destruct (templates st !! t')|discriminate]).
  - now repeat split.
Qed.

End Favourites.

Lemma favorites_stay_unique_witness :
  exists row,
    users (run [(7, 1); (7, 1); (7, 1)]%N Sample.favourites) !! 7%N = Some row /\
    NoDup (favoriteTemplates row).
Proof.
  assert (Hrow : users (run [(7, 1); (7, 1); (7, 1)]%N Sample.favourites) !! 7%N
                 = Some {| favoriteTemplates := [1%N] |})
    by (vm_compute; reflexivity).
  eexists. split; [exact Hrow|].
  refine (favorites_stay_unique Sample.favourites [(7, 1); (7, 1); (7, 1)]%N _ _ _ Hrow).
  intros u row Hu. unfold Sample.favourites in Hu. cbn [users] in Hu.
  apply lookup_singleton_Some in Hu as [_ <-]. constructor.
Defined.

Lemma favorite_twice_restores_witness :
  exists user,
    users Sample.favourites !! 7%N = Some user /\
    [1%N] = favoriteTemplates user ++ [1%N] /\
    favorite 7 1 (favorite 7 1 Sample.favourites).2
    = (Toggled removed (favoriteTemplates user), Sample.favourites).
Proof.
  apply (favorite_twice_restores 7 1 Sample.favourites [1%N]
           (favorite 7 1 Sample.favourites).2).
  vm_compute. reflexivity.
Defined.

End RoutesMore.

(* ================================================================== *)
(** * Further properties of the meme routes *)
(* ================================================================== *)

Module MemesMore.
Import Memes.

Section Like.

Implicit Types (memes : gmap N Meme) (m : Meme).

(** X15. A like request touches nothing but the [likes] of the named
    meme: every other meme and every other path of that meme stay as
    they were, and for an unknown id the answer is "not found" and the
    store is unchanged. *)
Theorem like_frame (u memeId : N) memes :
  let '(resp, memes') := like u memeId memes in
  (forall j, j <> memeId -> memes' !! j = memes !! j) /\
  (memes !! memeId = None -> resp = NotFound "Meme not found" /\ memes' = memes) /\
  (forall m, memes !! memeId = Some m ->
     exists l, memes' !! memeId = Some (set_likes m l) /\
               user (set_likes m l) = user m /\
               template (set_likes m l) = template m /\
               imageUrl (set_likes m l) = imageUrl m /\
               texts (set_likes m l) = texts m /\
               createdAt (set_likes m l) = createdAt m).
Proof.
  unfold like. destruct (memes !! memeId) as [m|] eqn:Hm.
  - simpl. destruct (Js.indexOf (likes m) u); simpl;
      (split; [intros j Hj; now rewrite lookup_insert_ne by congruence|]);
      (split; [discriminate|]); intros m' [= <-];
      eexists; (split; [apply lookup_insert_eq|]); now repeat split.
  - split; [reflexivity|]. split; [now split|discriminate].
Qed.

(** X16. On a meme whose likes hold no id twice, a like request flips
    the caller's membership and nobody else's: afterwards the caller is
    among the likes exactly if they were not before, every other user
    is among them exactly if they were before, and still no id occurs
    twice. *)
Theorem like_flips_membership (u memeId : N) memes m :
  memes !! memeId = Some m ->
  NoDup (likes m) ->
  exists m',
    (like u memeId memes).2 !! memeId = Some m' /\
    NoDup (likes m') /\
    (u ∈ likes m' <-> u ∉ likes m) /\
    (forall v, v <> u -> (v ∈ likes m' <-> v ∈ likes m)).
Proof.
  intros Hm Hnd. destruct (decide (u ∈ likes m)) as [Hin|Hout].
  - destruct (MemesProps.like_present _ _ _ _ Hm Hin) as (i & Hidx & ->).
    simpl. rewrite lookup_insert_eq. eexists. split; [reflexivity|]. simpl.
    destruct (MemesProps.splice1_removes _ _ _ Hidx) as [Hperm _].
    assert (Hnd' : NoDup (u :: Js.splice1 (likes m) i)) by now rewrite <- Hperm.
    apply NoDup_cons in Hnd' as [Hgone Hnd'].
    split; [exact Hnd'|]. split; [tauto|].
    intros v Hv. split.
    + intros H. apply list_elem_of_In.
      apply (Permutation_in _ (Permutation_sym Hperm)). right.
      now apply list_elem_of_In.
    + intros H. apply list_elem_of_In in H. apply (Permutation_in _ Hperm) in H.
      destruct H as [->|H]; [contradiction|now apply list_elem_of_In].
  - rewrite (MemesProps.like_absent _ _ _ _ Hm Hout).
    simpl. rewrite lookup_insert_eq. eexists. split; [reflexivity|]. simpl.
    split.
    + apply NoDup_app. split; [exact Hnd|]. split; [|apply NoDup_singleton].
      intros x Hx Hx'. apply list_elem_of_singleton in Hx'. now subst.
    + split.
      * split; [tauto|]. intros _. apply elem_of_app. right. left.
      * intros v Hv. rewrite elem_of_app, list_elem_of_singleton. tauto.
Qed.

End Like.

Lemma like_flips_membership_witness :
  exists m',
    (like 7 1 Sample.memes).2 !! 1%N = Some m' /\
    NoDup (likes m') /\
    (7%N ∈ likes m' <-> 7%N ∉ likes Sample.meme) /\
    (forall v, v <> 7%N -> (v ∈ likes m' <-> v ∈ likes Sample.meme)).
Proof.
  apply (like_flips_membership 7 1 Sample.memes Sample.meme eq_refl).
  constructor.
Defined.

Section Delete.
Import MemeDelete.

(** X17. Only the owner deletes a meme.  For an unknown id the answer
    is "not found" and, when the caller is not the meme's owner,
    "forbidden", both without any change; for the owner the meme is
    removed, every other meme stays, and a second request finds
    nothing. *)
Theorem delete_only_by_owner (u memeId : N) (memes : gmap N Meme) :
  let '(resp, memes') := delete_meme u memeId memes in
  match memes !! memeId with
  | None => resp = NotFound /\ memes' = memes
  | Some m =>
      if decide (user m = u)
      then resp = Deleted /\
           memes' !! memeId = None /\
           (forall j, j <> memeId -> memes' !! j = memes !! j) /\
           (delete_meme u memeId memes').1 = NotFound
      else resp = Forbidden /\ memes' = memes
  end.
Proof.
  unfold delete_meme. destruct (memes !! memeId) as [m|] eqn:Hm; [|now split].
  simpl. destruct (decide (user m = u)) as [<-|Hne].
  - rewrite N.eqb_refl. simpl. split; [reflexivity|].
    split; [apply lookup_delete_eq|].
    split; [intros j Hj; now apply lookup_delete_ne|].
    now rewrite lookup_delete_eq.
  - rewrite (proj2 (N.eqb_neq _ _) Hne). simpl. now split.
Qed.

End Delete.

Section Paging.
Import MyMemes.

(** X18. [GET /my-memes] clamps its paging: every [page] becomes at
    least 1 and every [limit] lies between 1 and 50, so the skip is
    never negative.  For such values [hasNextPage] holds exactly when
    the current page is below [totalPages] and [hasPrevPage] exactly
    when it is above 1. *)
Theorem my_memes_paging (page limit : option string) (total : Z) :
  let p := page_of page in
  let l := limit_of limit in
  1 <= p /\ 1 <= l <= 50 /\ 0 <= skip_of p l /\
  exists k,
    totalPages (pagination p l total) = Js.Int k /\
    (hasNextPage (pagination p l total) = true <-> p < k) /\
    (hasPrevPage (pagination p l total) = true <-> 1 < p).
Proof.
  cbv zeta.
  assert (Hp : 1 <= page_of page) by (unfold page_of; lia).
  assert (Hl : 1 <= limit_of limit <= 50) by (unfold limit_of; lia).
  revert Hp Hl. generalize (page_of page) (limit_of limit). intros p l Hp Hl.
  split; [exact Hp|]. split; [exact Hl|]. split; [unfold skip_of; nia|].
  assert (Hlim : l <> 0) by lia.
  assert (Hpos : 0 < l) by lia.
  pose proof (ceil_div_Int total l Hlim) as Hc.
  pose proof (ceil_div_bounds _ _ _ Hpos Hc) as Hk.
  unfold pagination. simpl. rewrite Hc.
  revert Hk. generalize (- (- total / l)). intros k Hk.
  exists k. split; [reflexivity|]. split.
  - rewrite Z.ltb_lt. split; intros H.
    + destruct (Z.lt_ge_cases p k) as [Hlt|Hge]; [exact Hlt|].
      assert (Hm : k * l <= p * l) by (apply Z.mul_le_mono_nonneg_r; lia). lia.
    + assert (Hm : p * l <= (k - 1) * l) by (apply Z.mul_le_mono_nonneg_r; lia). lia.
  - unfold Z.gtb. destruct (Z.compare_spec p 1) as [Hcmp|Hcmp|Hcmp];
      split; intros Hprev; try lia; try easy.
Qed.

End Paging.

End MemesMore.
